(** * execute-unity-action: a shallow embedding of [src/index.ts]

    The launcher locates an installed Unity editor, assembles its command
    line, runs it as a child process and relays its exit status.  The
    development follows the source function by function:

    - [JS]: the string primitives of the JavaScript runtime the source
      relies on ([split], [includes], [startsWith], [trim], truthiness,
      the [??] operator);
    - the observable actions of the program (console lines, file-system
      calls, stream writes, promise settlement, process exit) and the
      monad [M] that threads them; a computation of the model that runs
      out of fuel is [None], so that every result stated below is a result
      the program produces;
    - the functions of [index.ts], in source order, over an explicit
      [World] of runtime services ([os.platform], [path.join], [fs],
      [child_process]);
    - the notions of the specification, stated on their own;
    - the properties, one theorem per claim of the specification.

    A string is the sequence of its code units, each below 256; [trim]
    knows the white space and line terminators of that range.  Strings
    with code units beyond it are outside the model. *)

From Stdlib Require Import String Ascii List ZArith Lia Bool Arith DecimalString.
Import ListNotations.
Local Open Scope string_scope.
Local Open Scope list_scope.

(* ===================================================================== *)
(** ** JavaScript string primitives *)
(* ===================================================================== *)

Module JS.

(** A JavaScript string is falsy exactly when it is empty. *)
Definition truthy (s : string) : bool :=
  match s with
  | EmptyString => false
  | String _ _ => true
  end.

(** [s.startsWith(p)]. *)
Definition startsWith (s p : string) : bool := String.prefix p s.

(** [s.includes(sub)]: [sub] occurs in [s] at some offset. *)
Fixpoint includes (s sub : string) : bool :=
  String.prefix sub s ||
  match s with
  | EmptyString => false
  | String _ s' => includes s' sub
  end.

(** [s.split(sep)] for a one-character separator.  The result is never
    empty: [("").split(" ")] is [[""]], and two adjacent separators
    delimit an empty token. *)
Fixpoint split (sep : ascii) (s : string) : list string :=
  match s with
  | EmptyString => [EmptyString]
  | String c s' =>
      if Ascii.eqb c sep then EmptyString :: split sep s'
      else match split sep s' with
           | [] => [String c EmptyString]
           | t :: ts => String c t :: ts
           end
  end.

(** The white space and line terminators [trim] strips, among the code
    units below 256: TAB, LF, VT, FF, CR, SPACE and the no-break space
    U+00A0. *)
Definition isWhiteSpace (c : ascii) : bool :=
  let n := nat_of_ascii c in
  (((9 <=? n) && (n <=? 13)) || (n =? 32) || (n =? 160))%nat.

Fixpoint trimStart (s : string) : string :=
  match s with
  | EmptyString => EmptyString
  | String c s' => if isWhiteSpace c then trimStart s' else s
  end.

Fixpoint trimEnd (s : string) : string :=
  match s with
  | EmptyString => EmptyString
  | String c s' =>
      match trimEnd s' with
      | EmptyString => if isWhiteSpace c then EmptyString else String c EmptyString
      | t => String c t
      end
  end.

(** [s.trim()]. *)
Definition trim (s : string) : string := trimEnd (trimStart s).

(** [a ?? b] on a possibly-undefined value. *)
Definition nullish {A : Type} (a : option A) (b : A) : A :=
  match a with
  | Some x => x
  | None => b
  end.

(** Truthiness of a [string | undefined] value. *)
Definition truthyOpt (a : option string) : bool :=
  match a with
  | Some s => truthy s
  | None => false
  end.

(** Template-literal rendering of a [number | null] exit code. *)
Definition showCode (code : option Z) : string :=
  match code with
  | Some n => NilZero.string_of_int (Z.to_int n)
  | None => "null"
  end.

End JS.

(* ===================================================================== *)
(** ** Observable actions and the effect monad *)
(* ===================================================================== *)

(** A thrown JavaScript [Error]: its message and, for system errors, the
    [code] property ([EPERM], [EACCES], [ENOENT], ...). *)
Record Error : Type := mkError { code : option string; message : string }.

(** [fs.Dirent], as far as the source looks at it. *)
Record Dirent : Type := mkDirent { name : string; isDirectory : bool }.

(** A chunk of child output as delivered to a ['data'] listener. *)
Definition Buffer : Type := list Byte.byte.

(** What the event loop delivers to the listeners of the spawned child. *)
Inductive child_event : Type :=
| StdoutData (data : Buffer)
| StderrData (data : Buffer)
| CloseEv (exitCode : option Z)
| ErrorEv (error : Error).

(** Every call the program makes on its environment, in program order. *)
Inductive effect : Type :=
| ConsoleLog (line : string)
| ConsoleError (line : string)
| Chdir (path : string)
| ReadFileSync (path : string)
| ReaddirSync (path : string)
| ExistsSync (path : string)
| MkdirSync (path : string)
| CreateWriteStream (path : string)
| Spawn (command : string) (args : list string) (cwd : string)
| StreamWrite (chunk : string)
| StreamEnd
| Resolve (value : Z)
| Reject (reason : Error)
| ProcessExit (status : Z).

(** How a piece of code finishes: normally, by throwing, or suspended on a
    promise that never settles. *)
Inductive completion (A : Type) : Type :=
| Normal (a : A)
| Throw (e : Error)
| Suspended.
Arguments Normal {A} a.
Arguments Throw {A} e.
Arguments Suspended {A}.

(** Effectful code: the actions performed and the completion.  [None] is
    reserved for the loops of the model running out of fuel. *)
Definition M (A : Type) : Type := option (list effect * completion A).

Definition ret {A : Type} (a : A) : M A := Some ([], Normal a).

Definition bind {A B : Type} (m : M A) (k : A -> M B) : M B :=
  match m with
  | None => None
  | Some (t, Normal a) =>
      match k a with
      | None => None
      | Some (t', r) => Some (t ++ t', r)
      end
  | Some (t, Throw e) => Some (t, Throw e)
  | Some (t, Suspended) => Some (t, Suspended)
  end.

Notation "x <- m ;; k" := (bind m (fun x => k))
  (at level 61, m at next level, right associativity).
Notation "m ;; k" := (bind m (fun _ => k))
  (at level 61, right associativity).

Definition emit (e : effect) : M unit := Some ([e], Normal tt).

Definition throw {A : Type} (e : Error) : M A := Some ([], Throw e).

(** [try { body } catch (error) { handler }]. *)
Definition tryCatch {A : Type} (body : M A) (handler : Error -> M A) : M A :=
  match body with
  | Some (t, Throw e) =>
      match handler e with
      | None => None
      | Some (t', r) => Some (t ++ t', r)
      end
  | other => other
  end.

(** A computation of the model that only consumes fuel. *)
Definition liftFuel {A : Type} (o : option A) : M A :=
  match o with
  | Some a => ret a
  | None => None
  end.

(** The runtime services the program calls.  The file system is the view
    the process has while it runs; [child] gives, for the arguments of
    [spawn], the events the event loop delivers to the listeners of the
    child before the awaiting caller resumes. *)
Record World : Type := mkWorld {
  platform : string;
  env_unity_install_dir : option string;
  env_project_path : option string;
  env_log_path : option string;
  env_build_method : option string;
  env_custom_options : option string;
  process_cwd : string;
  join : string -> string -> string;
  dirname : string -> string;
  readdirSync : string -> Error + list Dirent;
  existsSync : string -> bool;
  readFileSync : string -> Error + string;
  chdir : string -> option Error;
  mkdirSync : string -> option Error;
  toString : Buffer -> string;
  child : string -> list string -> string -> list child_event
}.

(* ===================================================================== *)
(** ** The functions of [index.ts] *)
(* ===================================================================== *)

(** String concatenation, as [+] and template literals perform it. *)
Notation "s +++ t" := (String.append s t) (at level 60, right associativity).

Definition dquote : string := String "034" EmptyString.
Definition newline : ascii := "010"%char.
Definition space : ascii := " "%char.

(** The error the runtime throws for [undefined.trim()]. *)
Definition undefinedTrim : Error :=
  mkError None "Cannot read properties of undefined (reading 'trim')".

(** [(error.code === 'EPERM' || error.code === 'EACCES')], guarded by
    ['code' in error]. *)
Definition isPermissionError (e : Error) : bool :=
  match code e with
  | Some c => (c =? "EPERM") || (c =? "EACCES")
  | None => false
  end.

(** The body of the [for (let i = entries.length - 1; i >= 0; i--)] loop of
    [findUnityDirectory], run over the entries in the order the loop meets
    them (last listed first): [inl] is the early [return], [inr] the queue
    after all the [push]es. *)
Fixpoint scanEntries (joinPath : string -> string -> string)
    (currDir unityVer : string) (entries : list Dirent) (queue : list string)
  : string + list string :=
  match entries with
  | [] => inr queue
  | entry :: more =>
      if negb (isDirectory entry) then scanEntries joinPath currDir unityVer more queue
      else if JS.includes (name entry) unityVer then inl (joinPath currDir (name entry))
      else scanEntries joinPath currDir unityVer more (queue ++ [joinPath currDir (name entry)])
  end.

(** The body of the [for (const entry of entries)] loop of
    [findUnityExecutable]; [recurse] is the recursive call on a
    subdirectory. *)
Definition firstTruthy (joinPath : string -> string -> string)
    (recurse : string -> M (option string)) (unityDir : string)
  : list Dirent -> M (option string) :=
  fix each (entries : list Dirent) : M (option string) :=
    match entries with
    | [] => ret None
    | entry :: more =>
        if negb (isDirectory entry) then each more
        else
          result <- recurse (joinPath unityDir (name entry)) ;;
          if JS.truthyOpt result then ret result else each more
    end.

(** The five fixed entries [getBuildArguments] starts from. *)
Definition fixedArgs (projectPath executeMethod : string) : list string :=
  [ "-quit";
    "-batchmode";
    "-logFile -";
    "-projectPath " +++ projectPath;
    "-executeMethod " +++ executeMethod ].

(** The [for (let i = 0; i < tokens.length; i++)] loop of
    [getBuildArguments], with its index: [tokens[i + 1]] is looked at, and
    [++i] skips it when it is taken as the value. *)
Fixpoint tokenLoop (fuel : nat) (tokens : list string) (i : nat) (args : list string)
  : option (list string) :=
  match fuel with
  | O => match nth_error tokens i with None => Some args | Some _ => None end
  | S fuel' =>
      match nth_error tokens i with
      | None => Some args
      | Some token =>
          if JS.startsWith token "-" then
            let next := nth_error tokens (i + 1) in
            let takes := JS.truthyOpt next && negb (JS.startsWith (JS.nullish next "") "-") in
            let i' := if takes then i + 1 else i in
            let value := if takes then JS.nullish (nth_error tokens i') "" else "" in
            let entry := if JS.truthy value then token +++ " " +++ value else token in
            tokenLoop fuel' tokens (i' + 1) (args ++ [entry])
          else tokenLoop fuel' tokens (i + 1) args
      end
  end.

Definition getBuildArguments (projectPath executeMethod customOptions : string)
  : option (list string) :=
  let args := fixedArgs projectPath executeMethod in
  let tokens := if JS.truthy customOptions then JS.split space customOptions else [] in
  tokenLoop (length tokens) tokens 0 args.

(** The three listeners [executeUnityBuild] attaches to the child. *)
Definition onEvent (toStr : Buffer -> string) (ev : child_event) : list effect :=
  match ev with
  | StdoutData data =>
      let log := toStr data in [ConsoleLog log; StreamWrite log]
  | StderrData data =>
      let log := toStr data in [ConsoleError log; StreamWrite log]
  | CloseEv exitCode =>
      [ match exitCode with
        | Some 0%Z => ConsoleLog "Unity build completed successfully."
        | _ => ConsoleError ("Process exited with code: " +++ JS.showCode exitCode)
        end;
        StreamEnd;
        Resolve (JS.nullish exitCode 1%Z) ]
  | ErrorEv error =>
      [ ConsoleError ("Process failed: " +++ message error);
        StreamEnd;
        Reject error ]
  end.

(** The listeners run for every event, in delivery order. *)
Definition dispatch (toStr : Buffer -> string) (events : list child_event) : list effect :=
  flat_map (onEvent toStr) events.

(** A promise is settled by the first [resolve] or [reject] only. *)
Fixpoint await (t : list effect) : completion Z :=
  match t with
  | [] => Suspended
  | Resolve value :: _ => Normal value
  | Reject reason :: _ => Throw reason
  | _ :: t' => await t'
  end.

Section Launcher.

Variable w : World.

Definition getUnityVersion (projectPath : string) : M string :=
  tryCatch
    (let versionFilePath :=
       join w (join w projectPath "ProjectSettings") "ProjectVersion.txt" in
     emit (ReadFileSync versionFilePath) ;;
     versionFileContent <-
       match readFileSync w versionFilePath with
       | inl error => throw error
       | inr content => ret content
       end ;;
     let versionLine :=
       JS.nullish
         (find (fun line => JS.includes line "m_EditorVersion:")
               (JS.split newline versionFileContent)) "" in
     match nth_error (JS.split space versionLine) 1 with
     | Some field => ret (JS.trim field)
     | None => throw undefinedTrim
     end)
    (fun error =>
       throw (mkError None ("Failed to parse project version. Error: " +++ message error))).

Definition getUnityInstallDir (installDir : option string) : M string :=
  if JS.truthyOpt installDir then ret (JS.nullish installDir "")
  else if platform w =? "win32" then ret "C:\Program Files\"
  else if platform w =? "darwin" then ret "/Applications/"
  else if platform w =? "linux" then ret "/opt/"
  else throw (mkError None "Unsupported platform.").

(** The [while (queue.length > 0)] loop of [findUnityDirectory]. *)
Fixpoint searchQueue (fuel : nat) (unityVer : string) (queue : list string)
  : M (option string) :=
  match fuel with
  | O => None
  | S fuel' =>
      match queue with
      | [] => ret None
      | currDir :: queue' =>
          emit (ReaddirSync currDir) ;;
          match readdirSync w currDir with
          | inl error =>
              if isPermissionError error then searchQueue fuel' unityVer queue'
              else throw error
          | inr entries =>
              match scanEntries (join w) currDir unityVer (rev entries) queue' with
              | inl found => ret (Some found)
              | inr queue'' => searchQueue fuel' unityVer queue''
              end
          end
      end
  end.

Definition findUnityDirectory (fuel : nat) (dir unityVer : string) : M (option string) :=
  searchQueue fuel unityVer [dir].

Fixpoint findUnityExecutable (fuel : nat) (unityDir executableName : string)
  : M (option string) :=
  match fuel with
  | O => None
  | S fuel' =>
      let filePath := join w unityDir executableName in
      emit (ExistsSync filePath) ;;
      if existsSync w filePath then ret (Some filePath)
      else
        emit (ReaddirSync unityDir) ;;
        match readdirSync w unityDir with
        | inl error => throw error
        | inr entries =>
            firstTruthy (join w)
              (fun subDir => findUnityExecutable fuel' subDir executableName)
              unityDir entries
        end
  end.

Definition getUnityExecutable (fuel : nat) (installDir version : string)
  : M (option string) :=
  unityDir <- findUnityDirectory fuel installDir version ;;
  if negb (JS.truthyOpt unityDir) then
    emit (ConsoleError
            "Unable to find the corresponding Unity version installation folder.") ;;
    ret None
  else
    let unityDir := JS.nullish unityDir "" in
    let currPlatform := platform w in
    if currPlatform =? "win32" then findUnityExecutable fuel unityDir "Unity.exe"
    else if currPlatform =? "darwin" then
      findUnityExecutable fuel unityDir "Unity.app/Contents/MacOS/Unity"
    else if currPlatform =? "linux" then findUnityExecutable fuel unityDir "Unity"
    else ret None.

Definition executeUnityBuild (executable : string) (args : list string)
    (projectPath logPath : string) : M Z :=
  let logPath := join w projectPath logPath in
  emit (ConsoleLog ("Creating log file. Path: " +++ logPath)) ;;
  let dirPath := dirname w logPath in
  emit (ExistsSync dirPath) ;;
  (if negb (existsSync w dirPath) then
     emit (MkdirSync dirPath) ;;
     match mkdirSync w dirPath with
     | Some error => throw error
     | None => ret tt
     end
   else ret tt) ;;
  emit (CreateWriteStream logPath) ;;
  emit (ConsoleLog "Executing Unity build.") ;;
  let command := dquote +++ executable +++ dquote in
  emit (Spawn command args projectPath) ;;
  let handled := dispatch (toString w) (child w command args projectPath) in
  Some (handled, await handled).

Definition main (fuel : nat) : M unit :=
  tryCatch
    (unityInstallDir <- getUnityInstallDir (env_unity_install_dir w) ;;
     let projectPath := JS.nullish (env_project_path w) (process_cwd w) in
     let logPath := JS.nullish (env_log_path w) "Build/Releases/build_output.log" in
     let buildMethod := JS.nullish (env_build_method w) "" in
     let customOptions := JS.nullish (env_custom_options w) "" in
     emit (ConsoleLog ("Unity project path used: " +++ projectPath)) ;;
     emit (Chdir projectPath) ;;
     match chdir w projectPath with
     | Some error => throw error
     | None => ret tt
     end ;;
     unityVer <- getUnityVersion projectPath ;;
     emit (ConsoleLog ("Unity version used: " +++ unityVer)) ;;
     found <- getUnityExecutable fuel unityInstallDir unityVer ;;
     let unityExecutable := JS.nullish found "" in
     emit (ConsoleLog ("Unity Executable: " +++ unityExecutable)) ;;
     args <- liftFuel (getBuildArguments projectPath buildMethod customOptions) ;;
     emit (ConsoleLog ("Arguments: " +++ String.concat " " args)) ;;
     result <- executeUnityBuild unityExecutable args projectPath logPath ;;
     emit (ProcessExit result))
    (fun error =>
       emit (ConsoleError ("Error: " +++ message error)) ;;
       emit (ProcessExit 1%Z)).

End Launcher.

(** The status the process terminates with: [process.exit] ends the run, so
    it is the argument of the call the trace ends with, if it ends with
    one. *)
Definition exitStatus (t : list effect) : option Z :=
  match rev t with
  | ProcessExit status :: _ => Some status
  | _ => None
  end.

Definition exitStatusOf (m : M unit) : option Z :=
  match m with
  | Some (t, _) => exitStatus t
  | None => None
  end.

(* ===================================================================== *)
(** ** The specification's notions, stated independently of the code *)
(* ===================================================================== *)

(** *** Phase 1: breadth-first order with the reverse-listing tie-break *)

Section DirectorySearchSpec.

Variable w : World.
Variable unityVer : string.

(** The subdirectories of [d] in the order the search meets them: last
    listed first.  A directory that cannot be listed contributes none. *)
Definition subdirs (d : string) : list string :=
  match readdirSync w d with
  | inl _ => []
  | inr entries => map (fun e => join w d (name e)) (filter isDirectory (rev entries))
  end.

Definition nextLevel (level : list string) : list string := flat_map subdirs level.

(** The [n]-th level below [level]. *)
Fixpoint nthLevel (n : nat) (level : list string) : list string :=
  match n with
  | O => level
  | S n' => nthLevel n' (nextLevel level)
  end.

(** The directories of [n] consecutive levels, level by level. *)
Fixpoint levels (n : nat) (level : list string) : list string :=
  match n with
  | O => []
  | S n' => level ++ levels n' (nextLevel level)
  end.

(** What listing [d] decides: a fatal listing error, the first
    subdirectory (last listed first) whose name contains the version, or
    nothing ([None]: go on). *)
Definition visit (d : string) : option (completion (option string)) :=
  match readdirSync w d with
  | inl e => if isPermissionError e then None else Some (Throw e)
  | inr entries =>
      match find (fun e => isDirectory e && JS.includes (name e) unityVer) (rev entries) with
      | Some e => Some (Normal (Some (join w d (name e))))
      | None => None
      end
  end.

(** The first decision along a sequence of directories to list, with the
    directories listed up to it; "not found" when there is none. *)
Fixpoint firstVerdict (visits : list string) : list string * completion (option string) :=
  match visits with
  | [] => ([], Normal None)
  | d :: more =>
      match visit d with
      | Some r => ([d], r)
      | None => (d :: fst (firstVerdict more), snd (firstVerdict more))
      end
  end.

End DirectorySearchSpec.

(** *** Phase 2: pre-order depth-first order *)

Section ExecutableSearchSpec.

Variable w : World.








End ExecutableSearchSpec.

(** *** The re-parsing rule of the argument builder *)

(** The rule as the specification words it: a following token that exists
    and does not start with a dash is the flag's value. *)
Fixpoint reparseAsStated (tokens : list string) : list string :=
  match tokens with
  | [] => []
  | token :: rest =>
      if JS.startsWith token "-" then
        match rest with
        | value :: rest' =>
            if negb (JS.startsWith value "-")
            then (token +++ " " +++ value) :: reparseAsStated rest'
            else token :: reparseAsStated rest
        | [] => [token]
        end
      else reparseAsStated rest
  end.

(** The rule with the value required to be non-empty as well. *)
Fixpoint reparse (tokens : list string) : list string :=
  match tokens with
  | [] => []
  | token :: rest =>
      if JS.startsWith token "-" then
        match rest with
        | value :: rest' =>
            if JS.truthy value && negb (JS.startsWith value "-")
            then (token +++ " " +++ value) :: reparse rest'
            else token :: reparse rest
        | [] => [token]
        end
      else reparse rest
  end.

Definition customTokens (customOptions : string) : list string :=
  match customOptions with
  | EmptyString => []
  | _ => JS.split space customOptions
  end.

(** *** Fields of a line *)

(** The white-space separated fields of a line: its maximal runs of
    characters that are not white space. *)
Fixpoint fieldsFrom (current : string) (s : string) : list string :=
  match s with
  | EmptyString => if JS.truthy current then [current] else []
  | String c s' =>
      if JS.isWhiteSpace c then
        if JS.truthy current then current :: fieldsFrom EmptyString s'
        else fieldsFrom EmptyString s'
      else fieldsFrom (current +++ String c EmptyString) s'
  end.

Definition whitespaceFields (line : string) : list string := fieldsFrom EmptyString line.

(** The first line of a file that contains the marker token. *)
Definition markerLine (content : string) : option string :=
  find (fun line => JS.includes line "m_EditorVersion:") (JS.split newline content).

(** The error [getUnityVersion] raises. *)
Definition parseError (cause : Error) : Error :=
  mkError None ("Failed to parse project version. Error: " +++ message cause).

(** *** Reading a trace *)

Definition isStreamEnd (e : effect) : bool :=
  match e with StreamEnd => true | _ => false end.

Definition isSettle (e : effect) : bool :=
  match e with Resolve _ | Reject _ => true | _ => false end.

Definition isSpawn (e : effect) : bool :=
  match e with Spawn _ _ _ => true | _ => false end.

Definition isOpen (e : effect) : bool :=
  match e with CreateWriteStream _ => true | _ => false end.

Definition isFsSearch (e : effect) : bool :=
  match e with ReaddirSync _ | ExistsSync _ => true | _ => false end.

(** The number of [end()] calls. *)
Definition endCalls (t : list effect) : nat := length (filter isStreamEnd t).

(** The state of the log handle, and the number of times it went from
    open to closed: [end()] on a stream that has ended does nothing. *)
Inductive handle : Type := NotOpened | Opened | Ended.

Fixpoint handleRun (h : handle) (closes : nat) (t : list effect) : handle * nat :=
  match t with
  | [] => (h, closes)
  | CreateWriteStream _ :: t' => handleRun Opened closes t'
  | StreamEnd :: t' =>
      match h with
      | Opened => handleRun Ended (S closes) t'
      | _ => handleRun h closes t'
      end
  | _ :: t' => handleRun h closes t'
  end.

Definition handleCloses (t : list effect) : handle * nat := handleRun NotOpened 0 t.

(** The chunks appended to the log file, in order. *)
Fixpoint logWrites (t : list effect) : list string :=
  match t with
  | [] => []
  | StreamWrite chunk :: t' => chunk :: logWrites t'
  | _ :: t' => logWrites t'
  end.

(** The two output streams of the child, and a chunk arriving on one. *)
Inductive stream : Type := Stdout | Stderr.

Definition dataEvent (c : stream * Buffer) : child_event :=
  match fst c with
  | Stdout => StdoutData (snd c)
  | Stderr => StderrData (snd c)
  end.

(** The console line and the log write one chunk must give rise to. *)
Definition echoAndAppend (toStr : Buffer -> string) (c : stream * Buffer) : list effect :=
  [ match fst c with
    | Stdout => ConsoleLog (toStr (snd c))
    | Stderr => ConsoleError (toStr (snd c))
    end;
    StreamWrite (toStr (snd c)) ].

(** The event that ends a run: the child closed, or could not be started. *)
Inductive terminal : Type :=
| Closed (exitCode : option Z)
| Failed (error : Error).

Definition terminalEvent (t : terminal) : child_event :=
  match t with
  | Closed exitCode => CloseEv exitCode
  | Failed error => ErrorEv error
  end.

(** The settlement a terminal event must produce. *)
Definition settlement (t : terminal) : effect :=
  match t with
  | Closed exitCode => Resolve (JS.nullish exitCode 1%Z)
  | Failed error => Reject error
  end.

Definition outcome (t : terminal) : completion Z :=
  match t with
  | Closed exitCode => Normal (JS.nullish exitCode 1%Z)
  | Failed error => Throw error
  end.

(** The log directory exists or can be created, so that the runner gets as
    far as opening the log and starting the child. *)
Definition logDirReady (w : World) (projectPath logPath : string) : Prop :=
  let dirPath := dirname w (join w projectPath logPath) in
  existsSync w dirPath = true \/ mkdirSync w dirPath = None.

Definition supported (p : string) : bool :=
  (p =? "win32") || (p =? "darwin") || (p =? "linux").

(** An action in front of a computation: the action heads the trace. *)
Definition after (e : effect) {A : Type} (m : M A) : M A :=
  match m with
  | None => None
  | Some (t, r) => Some (e :: t, r)
  end.

(** The completion of a computation, its trace left out. *)
Definition resultOf {A : Type} (m : M A) : option (completion A) := option_map snd m.

(** The trace of a computation. *)
Definition traceOf {A : Type} (m : M A) : option (list effect) := option_map fst m.

(** The position of the first action of a kind in a trace. *)
Fixpoint firstIndex (p : effect -> bool) (t : list effect) : option nat :=
  match t with
  | [] => None
  | e :: t' => if p e then Some 0 else option_map S (firstIndex p t')
  end.

(** The actions of [executeUnityBuild] up to and including the [spawn],
    when the log directory exists or can be created. *)
Definition launchTrace (w : World) (executable : string) (args : list string)
    (projectPath logPath : string) : list effect :=
  let logPath := join w projectPath logPath in
  let dirPath := dirname w logPath in
  [ConsoleLog ("Creating log file. Path: " +++ logPath); ExistsSync dirPath] ++
  (if existsSync w dirPath then [] else [MkdirSync dirPath]) ++
  [CreateWriteStream logPath;
   ConsoleLog "Executing Unity build.";
   Spawn (dquote +++ executable +++ dquote) args projectPath].

(** What [main] hands to [executeUnityBuild]. *)
Record launch : Type := mkLaunch {
  unityExecutable : string;
  buildArgs : list string;
  launchProjectPath : string;
  launchLogPath : string
}.

(** The statements of [main] that precede the call of
    [executeUnityBuild], in the order of the source. *)
Definition prepare (w : World) (fuel : nat) : M launch :=
  unityInstallDir <- getUnityInstallDir w (env_unity_install_dir w) ;;
  let projectPath := JS.nullish (env_project_path w) (process_cwd w) in
  let logPath := JS.nullish (env_log_path w) "Build/Releases/build_output.log" in
  let buildMethod := JS.nullish (env_build_method w) "" in
  let customOptions := JS.nullish (env_custom_options w) "" in
  emit (ConsoleLog ("Unity project path used: " +++ projectPath)) ;;
  emit (Chdir projectPath) ;;
  match chdir w projectPath with
  | Some error => throw error
  | None => ret tt
  end ;;
  unityVer <- getUnityVersion w projectPath ;;
  emit (ConsoleLog ("Unity version used: " +++ unityVer)) ;;
  found <- getUnityExecutable w fuel unityInstallDir unityVer ;;
  let unityExecutable := JS.nullish found "" in
  emit (ConsoleLog ("Unity Executable: " +++ unityExecutable)) ;;
  args <- liftFuel (getBuildArguments projectPath buildMethod customOptions) ;;
  emit (ConsoleLog ("Arguments: " +++ String.concat " " args)) ;;
  ret (mkLaunch unityExecutable args projectPath logPath).

(** The command line [spawn] is given for a launch. *)
Definition commandOf (l : launch) : string := dquote +++ unityExecutable l +++ dquote.

(** The [catch] block of [main]. *)
Definition report (error : Error) : list effect :=
  [ConsoleError ("Error: " +++ message error); ProcessExit 1%Z].

(* ===================================================================== *)
(** ** Sample worlds *)
(* ===================================================================== *)

Definition posixJoin (a b : string) : string := a +++ "/" +++ b.

Definition folder (n : string) : Dirent := mkDirent n true.
Definition file (n : string) : Dirent := mkDirent n false.

Definition EACCES : Error := mkError (Some "EACCES") "EACCES: permission denied, scandir".
Definition ENOENT : Error := mkError (Some "ENOENT") "ENOENT: no such file or directory".
Definition EIO : Error := mkError (Some "EIO") "EIO: i/o error, scandir".

(** A world on the given platform and file system; the project lives in
    [/proj], whose log directory exists. *)
Definition sampleWorld (plat : string) (installDir : option string)
    (listing : string -> Error + list Dirent) (present : string -> bool)
    (content : string -> Error + string) (events : list child_event) : World :=
  mkWorld plat installDir (Some "/proj") None (Some "Builder.Run") None "/"
    posixJoin (fun _ => "/proj/Build/Releases")
    listing present content (fun _ => None) (fun _ => None)
    string_of_list_byte (fun _ _ _ => events).

(** A [ProjectVersion.txt] as the editor writes it, with CR LF line ends. *)
Definition projectVersionText : string :=
  "m_EditorVersion: 2021.3.1f1" +++ String "013" (String "010"
  ("m_EditorVersionWithRevision: 2021.3.1f1 (3b9a5f2c9d1e)" +++ String "013" (String "010" ""))).

Definition versionFile (text : string) (path : string) : Error + string :=
  if path =? "/proj/ProjectSettings/ProjectVersion.txt" then inr text else inl ENOENT.

(** An install root with an unreadable [Hub] and two sibling editors. *)
Definition editorsListing (path : string) : Error + list Dirent :=
  if path =? "/opt" then inr [folder "Hub"; file "notes.txt"; folder "Editors"]
  else if path =? "/opt/Editors" then inr [folder "2021.3.1f1"; folder "2021.3.10f1"]
  else if path =? "/opt/Editors/2021.3.1f1" then inr [folder "Editor"; file "Unity"]
  else if path =? "/opt/Editors/2021.3.1f1/Editor" then inr [file "Unity"]
  else if path =? "/opt/Editors/2021.3.10f1" then inr []
  else if path =? "/opt/Hub" then inl EACCES
  else inl ENOENT.

Definition editorsPresent (path : string) : bool :=
  (path =? "/opt/Editors/2021.3.1f1/Unity") ||
  (path =? "/opt/Editors/2021.3.1f1/Editor/Unity").

Definition editorsWorld : World :=
  sampleWorld "linux" (Some "/opt") editorsListing editorsPresent
    (versionFile projectVersionText) [CloseEv (Some 0%Z)].

(** An editor directory with a subdirectory that cannot be listed, and no
    executable anywhere. *)
Definition lockedListing (path : string) : Error + list Dirent :=
  if path =? "/opt" then inr [folder "2021.3.1f1"]
  else if path =? "/opt/2021.3.1f1" then inr [folder "Data"]
  else if path =? "/opt/2021.3.1f1/Data" then inl EACCES
  else inl ENOENT.

Definition lockedWorld : World :=
  sampleWorld "linux" (Some "/opt") lockedListing (fun _ => false)
    (versionFile projectVersionText) [CloseEv (Some 0%Z)].

(** An install root where listing [B] fails with an I/O error although the
    wanted editor sits under [A]. *)
Definition brokenListing (path : string) : Error + list Dirent :=
  if path =? "/opt" then inr [folder "A"; folder "B"]
  else if path =? "/opt/A" then inr [folder "2021.3.1f1"]
  else if path =? "/opt/B" then inl EIO
  else inl ENOENT.

Definition brokenWorld : World :=
  sampleWorld "linux" (Some "/opt") brokenListing (fun _ => false)
    (versionFile projectVersionText) [CloseEv (Some 0%Z)].



(** The same installation with the executable one level down only. *)
Definition nestedPresent (path : string) : bool :=
  path =? "/opt/Editors/2021.3.1f1/Editor/Unity".

Definition nestedWorld : World :=
  sampleWorld "linux" (Some "/opt") editorsListing nestedPresent
    (versionFile projectVersionText) [CloseEv (Some 0%Z)].

(** A version file whose marker and value are separated by a TAB. *)
Definition tab : string := String "009" EmptyString.

Definition tabbedWorld : World :=
  sampleWorld "linux" (Some "/opt") editorsListing editorsPresent
    (versionFile ("m_EditorVersion:" +++ tab +++ "2021.3.1f1")) [CloseEv (Some 0%Z)].



(** A child that writes to both streams and is then killed by a signal. *)
Definition killedEvents : list child_event :=
  [StdoutData (list_byte_of_string "Compiling"); StderrData (list_byte_of_string "warning");
   CloseEv None].

Definition killedWorld : World :=
  sampleWorld "linux" (Some "/opt") editorsListing editorsPresent
    (versionFile projectVersionText) killedEvents.

(** A child that writes to both streams and exits with status 3. *)
Definition failingEvents : list child_event :=
  [StdoutData (list_byte_of_string "Compiling"); StderrData (list_byte_of_string "error CS1002");
   StdoutData (list_byte_of_string "Aborting"); CloseEv (Some 3%Z)].

Definition failingWorld : World :=
  sampleWorld "linux" (Some "/opt") editorsListing editorsPresent
    (versionFile projectVersionText) failingEvents.

(** A child that cannot be started: the runtime reports the error and
    then the close. *)
Definition spawnError : Error := mkError (Some "EAGAIN") "spawn /bin/sh EAGAIN".

Definition unstartedWorld : World :=
  sampleWorld "linux" (Some "/opt") editorsListing editorsPresent
    (versionFile projectVersionText) [ErrorEv spawnError; CloseEv (Some (-11)%Z)].

(** A project without a version file. *)
Definition missingWorld : World :=
  sampleWorld "linux" (Some "/opt") editorsListing editorsPresent
    (fun _ => inl ENOENT) [CloseEv (Some 0%Z)].

(* ===================================================================== *)
(** ** Further notions used by the properties beyond the specification *)
(* ===================================================================== *)

(** The relative path of the editor binary [getUnityExecutable] looks for
    on each platform it knows. *)
Definition executableFor (plat : string) : string :=
  if plat =? "win32" then "Unity.exe"
  else if plat =? "darwin" then "Unity.app/Contents/MacOS/Unity"
  else "Unity".

(** A token that begins a flag. *)
Definition dashed (token : string) : bool := JS.startsWith token "-".

(** An install root that is itself the folder of one editor version, as
    the action's documentation advises against. *)
Definition directListing (path : string) : Error + list Dirent :=
  if path =? "/opt/2021.3.1f1" then inr [file "Unity"; file "version.txt"]
  else inl ENOENT.

Definition directWorld : World :=
  sampleWorld "linux" (Some "/opt/2021.3.1f1") directListing
    (fun path => path =? "/opt/2021.3.1f1/Unity")
    (versionFile projectVersionText) [CloseEv (Some 0%Z)].

(** What a successful phase-2 search has established about the path [p]
    it returns after the actions [t]. *)
Definition checked (w : World) (executableName : string) (t : list effect) (p : string)
  : Prop :=
  existsSync w p = true /\
  exists d t', p = join w d executableName /\ t = t' ++ [ExistsSync p].

(** An entry of the argument list that stems from the flag [token]: the
    flag alone, or the flag, one space and a value that is not empty and
    does not start with a dash. *)
Definition flagEntry (entry token : string) : Prop :=
  entry = token \/
  exists value, entry = token +++ " " +++ value /\
                JS.truthy value = true /\ dashed value = false.

(** A custom options string as the action's documentation asks for it:
    every parameter starts with a dash and is followed by at most one
    value, single spaces in between. *)
Fixpoint wellFormed (tokens : list string) : bool :=
  match tokens with
  | [] => true
  | token :: rest =>
      dashed token &&
      match rest with
      | [] => true
      | value :: rest' =>
          if dashed value then wellFormed rest
          else JS.truthy value && wellFormed rest'
      end
  end.

(** The character [c] does not occur in [s]. *)
Fixpoint noChar (c : ascii) (s : string) : bool :=
  match s with
  | EmptyString => true
  | String x s' => negb (Ascii.eqb x c) && noChar c s'
  end.

(** No white space occurs in [s]. *)
Fixpoint blankFree (s : string) : bool :=
  match s with
  | EmptyString => true
  | String x s' => negb (JS.isWhiteSpace x) && blankFree s'
  end.

(** A version file as the editor writes it: the marker, one space and the
    version on the first line, which ends with LF or CR LF when more
    follows, or ends the file. *)
Definition versionFileText (version : string) (cr : bool) (more : option string) : string :=
  "m_EditorVersion: " +++ version +++
  (if cr then String "013" "" else "") +++
  match more with
  | None => ""
  | Some rest => String newline rest
  end.

Definition isMkdir (e : effect) : bool :=
  match e with MkdirSync _ => true | _ => false end.

(** The project path, the log path and the argument list [main] works
    with, as it reads them from the environment. *)
Definition projectPathOf (w : World) : string :=
  JS.nullish (env_project_path w) (process_cwd w).

Definition logPathOf (w : World) : string :=
  JS.nullish (env_log_path w) "Build/Releases/build_output.log".

Definition argumentsOf (w : World) : list string :=
  fixedArgs (projectPathOf w) (JS.nullish (env_build_method w) "") ++
  reparse (customTokens (JS.nullish (env_custom_options w) "")).

(** A world whose child writes and never ends. *)
Definition endlessWorld : World :=
  sampleWorld "linux" (Some "/opt") editorsListing editorsPresent
    (versionFile projectVersionText)
    [StdoutData (list_byte_of_string "Compiling"); StderrData (list_byte_of_string "warning")].

(** A world without the wanted editor; the shell started for the empty
    command reports 127. *)
Definition absentWorld : World :=
  sampleWorld "linux" (Some "/opt") editorsListing editorsPresent
    (versionFile "m_EditorVersion: 2019.4.40f1") [CloseEv (Some 127%Z)].

(** A world whose project directory cannot be entered. *)
Definition noProjectWorld : World :=
  mkWorld "linux" (Some "/opt") (Some "/gone") None (Some "Builder.Run") None "/"
    posixJoin (fun _ => "/gone/Build/Releases")
    editorsListing editorsPresent (versionFile projectVersionText)
    (fun _ => Some ENOENT) (fun _ => None)
    string_of_list_byte (fun _ _ _ => [CloseEv (Some 0%Z)]).

(** A world whose log directory can be neither found nor created. *)
Definition readOnlyWorld : World :=
  mkWorld "linux" (Some "/opt") (Some "/proj") None (Some "Builder.Run") None "/"
    posixJoin (fun _ => "/proj/Build/Releases")
    editorsListing editorsPresent (versionFile projectVersionText)
    (fun _ => None) (fun _ => Some EACCES)
    string_of_list_byte (fun _ _ _ => [CloseEv (Some 0%Z)]).

(* ===================================================================== *)
(** ** The blocking variant, [build-unity-project.js] *)
(* ===================================================================== *)

(** The script shares [getUnityInstallDir], [findUnityDirectory] and
    [findUnityExecutable] with [index.ts] word for word (it answers [null]
    where [index.ts] answers [undefined]); those are not repeated.  Its
    other functions differ and are embedded here.  The child inherits the
    console ([stdio: 'inherit']), so its output is no action of the
    script. *)

Module BuildJs.

(** What [spawnSync] returns, as far as the script looks at it. *)
Record SpawnSyncResult : Type := mkResult {
  result_error : option Error;
  result_status : option Z
}.

(** What the script reads beyond the [World] of the launcher. *)
Record Env : Type := mkEnv {
  env_log_dir : option string;
  env_log_name : option string;
  env_build_version : option string;
  spawnSync : string -> list string -> string -> SpawnSyncResult
}.

(** Template-literal rendering of a [string | undefined] value and of a
    [string | null] value. *)
Definition showUndefined (o : option string) : string :=
  match o with
  | Some s => s
  | None => "undefined"
  end.

Definition showNull (o : option string) : string :=
  match o with
  | Some s => s
  | None => "null"
  end.

(** [a || ""] on a [string | undefined] value. *)
Definition orEmpty (o : option string) : string :=
  match o with
  | Some s => s
  | None => ""
  end.

(** The error [path.join] throws for an argument that is not a string. *)
Definition invalidPath : Error :=
  mkError (Some "ERR_INVALID_ARG_TYPE")
    ("The " +++ dquote +++ "path" +++ dquote +++
     " argument must be of type string. Received undefined").

(** The error the runtime throws for [undefined.split(' ')]. *)
Definition undefinedSplit : Error :=
  mkError None "Cannot read properties of undefined (reading 'split')".

(** [process.exit(code)] does not return: no later statement runs and no
    [catch] sees it, as for a promise that never settles.  A [null] code
    is the default status, 0. *)
Definition exit {A : Type} (code : option Z) : M A :=
  Some ([ProcessExit (JS.nullish code 0%Z)], Suspended).

Section Script.

Variable w : World.
Variable env : Env.

(** [join(a, b)] where [a] may be [undefined]. *)
Definition joinPath (a : option string) (b : string) : M string :=
  match a with
  | Some p => ret (join w p b)
  | None => throw invalidPath
  end.

Definition getUnityVersion (unityProjectPath : option string) : M string :=
  tryCatch
    (versionFilePath <-
       match unityProjectPath with
       | Some p => ret (join w (join w p "ProjectSettings") "ProjectVersion.txt")
       | None => throw invalidPath
       end ;;
     emit (ReadFileSync versionFilePath) ;;
     versionFileContent <-
       match readFileSync w versionFilePath with
       | inl error => throw error
       | inr content => ret content
       end ;;
     match find (fun line => JS.includes line "m_EditorVersion:")
                (JS.split newline versionFileContent) with
     | None => throw undefinedSplit
     | Some versionLine =>
         match nth_error (JS.split space versionLine) 1 with
         | Some field => ret (JS.trim field)
         | None => throw undefinedTrim
         end
     end)
    (fun error =>
       throw (mkError None
                ("Failed to parse project version." +++ String newline " "
                 +++ message error))).

Definition getUnityExecutable (fuel : nat) (installDir version : string)
  : M (option string) :=
  unityDir <- findUnityDirectory w fuel installDir version ;;
  if negb (JS.truthyOpt unityDir) then
    emit (ConsoleError
            "Unable to find the corresponding Unity version installation folder.") ;;
    ret None
  else
    let unityDir := JS.nullish unityDir "" in
    let currPlatform := platform w in
    if currPlatform =? "win32" then findUnityExecutable w fuel unityDir "Unity.exe"
    else if currPlatform =? "darwin" then
      findUnityExecutable w fuel unityDir "Unity.app/Contents/MacOS/Unity"
    else if currPlatform =? "linux" then
      findUnityExecutable w fuel unityDir "unity-editor/Unity"
    else ret None.

(** The five fixed entries of the script's [getBuildArguments]. *)
Definition fixedArgs (projectPath : option string) (logPath : string) : list string :=
  [ "-batchmode";
    "-quit";
    "-projectPath " +++ showUndefined projectPath;
    "-executeMethod " +++ showUndefined (env_build_method w);
    "-logFile " +++ logPath ].

Definition getBuildArguments (projectPath : option string) (logPath : string)
  : option (list string) :=
  let args := fixedArgs projectPath logPath in
  let customOptions := orEmpty (env_custom_options w) in
  let tokens := if JS.truthy customOptions then JS.split space customOptions else [] in
  tokenLoop (length tokens) tokens 0 args.

Definition executeUnityBuild (executable : option string) (args : list string)
    (workingDir : option string) : M unit :=
  emit (ConsoleLog "Start Unity build.") ;;
  let executable := dquote +++ showNull executable +++ dquote in
  let cwd := JS.nullish workingDir (process_cwd w) in
  emit (Spawn executable args cwd) ;;
  let result := spawnSync env executable args cwd in
  match result_error result with
  | Some error =>
      emit (ConsoleError ("Process failed. " +++ message error)) ;;
      exit (Some 1%Z)
  | None => ret tt
  end ;;
  match result_status result with
  | Some 0%Z => ret tt
  | status =>
      emit (ConsoleError ("Process exited with code: " +++ JS.showCode status)) ;;
      exit status
  end.

Definition buildUnityProject (fuel : nat) : M unit :=
  tryCatch
    (let projectPath := env_project_path w in
     emit (ConsoleLog ("Unity project path used: " +++ showUndefined projectPath)) ;;
     unityVer <- getUnityVersion projectPath ;;
     emit (ConsoleLog ("Unity version used: " +++ unityVer)) ;;
     unityInstallDir <- getUnityInstallDir w (env_unity_install_dir w) ;;
     unityExecutable <- getUnityExecutable fuel unityInstallDir unityVer ;;
     emit (ConsoleLog ("Executable: " +++ showNull unityExecutable)) ;;
     logPath <- joinPath (env_log_dir env)
                  (showUndefined (env_log_name env) +++ "_" +++
                   showUndefined (env_build_version env) +++ ".log") ;;
     args <- liftFuel (getBuildArguments projectPath logPath) ;;
     emit (ConsoleLog ("Arguments: " +++ String.concat " " args)) ;;
     executeUnityBuild unityExecutable args projectPath ;;
     emit (ConsoleLog "Unity Build Log:") ;;
     fullLogPath <- joinPath projectPath logPath ;;
     emit (ReadFileSync fullLogPath) ;;
     log <-
       match readFileSync w fullLogPath with
       | inl error => throw error
       | inr content => ret content
       end ;;
     emit (ConsoleLog log))
    (fun error =>
       emit (ConsoleError (message error)) ;;
       exit (Some 1%Z)).

End Script.

End BuildJs.

(* ===================================================================== *)
(** ** The compiled action's argument builder *)
(* ===================================================================== *)

(** [getCommandLineArguments] of the compiled action: the loop of
    [getBuildArguments] after two fixed entries. *)
Definition getCommandLineArguments (projectPath customArgs : string)
  : option (list string) :=
  let args := ["-logFile -"; "-projectPath " +++ projectPath] in
  let tokens := if JS.truthy customArgs then JS.split space customArgs else [] in
  tokenLoop (length tokens) tokens 0 args.

(** The script's log path, argument list, command and the actions up to
    and including the [spawnSync] call, from what its stages answer. *)
Definition blockingLogPath (w : World) (env : BuildJs.Env) (logDir : string) : string :=
  join w logDir
    (BuildJs.showUndefined (BuildJs.env_log_name env) +++ "_" +++
     BuildJs.showUndefined (BuildJs.env_build_version env) +++ ".log").

Definition blockingArgs (w : World) (projectPath logPath : string) : list string :=
  BuildJs.fixedArgs w (Some projectPath) logPath ++
  reparse (customTokens (BuildJs.orEmpty (env_custom_options w))).

Definition blockingCommand (found : option string) : string :=
  dquote +++ BuildJs.showNull found +++ dquote.

Definition blockingPrefix (w : World) (projectPath version : string)
    (tv te : list effect) (found : option string) (logPath : string) : list effect :=
  [ConsoleLog ("Unity project path used: " +++ projectPath)] ++ tv ++
  [ConsoleLog ("Unity version used: " +++ version)] ++ te ++
  [ConsoleLog ("Executable: " +++ BuildJs.showNull found);
   ConsoleLog ("Arguments: " +++ String.concat " " (blockingArgs w projectPath logPath));
   ConsoleLog "Start Unity build.";
   Spawn (blockingCommand found) (blockingArgs w projectPath logPath) projectPath].

(** Sample worlds of the script: the editor under [unity-editor], logs
    in [Logs]. *)
Definition scriptPresent (path : string) : bool :=
  path =? "/opt/Editors/2021.3.1f1/unity-editor/Unity".

Definition scriptContent (path : string) : Error + string :=
  if path =? "/proj/ProjectSettings/ProjectVersion.txt" then inr projectVersionText
  else if path =? "/proj/Logs/build_7.log" then inr "Build succeeded"
  else inl ENOENT.

Definition scriptWorld : World :=
  sampleWorld "linux" (Some "/opt") editorsListing scriptPresent scriptContent [].

Definition scriptEnv (logDir : option string) (result : BuildJs.SpawnSyncResult)
  : BuildJs.Env :=
  BuildJs.mkEnv logDir (Some "build") (Some "7") (fun _ _ _ => result).

(** A world in which none of the inputs is set. *)
Definition unsetWorld : World :=
  mkWorld "linux" None None None None None "/" posixJoin (fun p => p)
    editorsListing editorsPresent (versionFile projectVersionText)
    (fun _ => None) (fun _ => None) string_of_list_byte (fun _ _ _ => []).

(* ===================================================================== *)
(** ** Properties *)
(* ===================================================================== *)

(** *** The model at work *)

Example split_two_spaces : JS.split space "-a  b" = ["-a"; ""; "b"].
Proof. reflexivity. Qed.

Example split_empty : JS.split space "" = [""].
Proof. reflexivity. Qed.

Example includes_sibling :
  JS.includes "2021.3.10f1" "2021.3.1f1" = false /\
  JS.includes "Unity-2021.3.1f1-LTS" "2021.3.1f1" = true.
Proof. split; reflexivity. Qed.

Example trim_carriage_return : JS.trim ("2021.3.1f1" +++ String "013" "") = "2021.3.1f1".
Proof. reflexivity. Qed.

Example showCode_values :
  JS.showCode (Some (-2)%Z) = "-2" /\ JS.showCode (Some 3%Z) = "3" /\
  JS.showCode None = "null".
Proof. repeat split; reflexivity. Qed.

Example main_editors :
  main editorsWorld 7 =
  Some ([ConsoleLog "Unity project path used: /proj";
         Chdir "/proj";
         ReadFileSync "/proj/ProjectSettings/ProjectVersion.txt";
         ConsoleLog "Unity version used: 2021.3.1f1";
         ReaddirSync "/opt";
         ReaddirSync "/opt/Editors";
         ExistsSync "/opt/Editors/2021.3.1f1/Unity";
         ConsoleLog "Unity Executable: /opt/Editors/2021.3.1f1/Unity";
         ConsoleLog ("Arguments: -quit -batchmode -logFile - -projectPath /proj " +++
                     "-executeMethod Builder.Run");
         ConsoleLog "Creating log file. Path: /proj/Build/Releases/build_output.log";
         ExistsSync "/proj/Build/Releases";
         MkdirSync "/proj/Build/Releases";
         CreateWriteStream "/proj/Build/Releases/build_output.log";
         ConsoleLog "Executing Unity build.";
         Spawn (dquote +++ "/opt/Editors/2021.3.1f1/Unity" +++ dquote)
           ["-quit"; "-batchmode"; "-logFile -"; "-projectPath /proj";
            "-executeMethod Builder.Run"]
           "/proj";
         ConsoleLog "Unity build completed successfully.";
         StreamEnd;
         Resolve 0%Z;
         ProcessExit 0%Z],
        Normal tt).
Proof. reflexivity. Qed.

(** *** Laws of the effect monad *)

Lemma bind_ret_l (A B : Type) (a : A) (k : A -> M B) : bind (ret a) k = k a.
Proof.
  unfold bind, ret. destruct (k a) as [[t r]|]; reflexivity.
Qed.

Lemma bind_emit (A : Type) (e : effect) (k : M A) : (emit e ;; k) = after e k.
Proof.
  unfold bind, emit, after. destruct k as [[t r]|]; reflexivity.
Qed.

(** *** VersionReader *)

(** C8 (as stated, refuted): the first marker line of the file is
    [m_EditorVersion:<TAB>2021.3.1f1]; its second white-space separated
    field is [2021.3.1f1], yet the reader, which cuts the line at spaces
    only, finds no second piece and fails with the parse error. *)
Lemma C8_tab_separated_counterexample :
  readFileSync tabbedWorld "/proj/ProjectSettings/ProjectVersion.txt" =
    inr ("m_EditorVersion:" +++ tab +++ "2021.3.1f1") /\
  markerLine ("m_EditorVersion:" +++ tab +++ "2021.3.1f1") =
    Some ("m_EditorVersion:" +++ tab +++ "2021.3.1f1") /\
  nth_error (whitespaceFields ("m_EditorVersion:" +++ tab +++ "2021.3.1f1")) 1 =
    Some "2021.3.1f1" /\
  getUnityVersion tabbedWorld "/proj" =
    Some ([ReadFileSync "/proj/ProjectSettings/ProjectVersion.txt"],
          Throw (parseError undefinedTrim)) /\
  resultOf (getUnityVersion tabbedWorld "/proj") <> Some (Normal "2021.3.1f1").
Proof.
  repeat split; try reflexivity. vm_compute. discriminate.
Qed.

(** C8 (amended): the reader returns the trimmed second piece of the first
    line containing the marker [m_EditorVersion:], the line being cut at
    every single space character; it fails with the parse error when the
    file cannot be read, when no line contains the marker, and when the
    marker line contains no space. *)
Theorem C8_version_reader :
  forall (w : World) (projectPath : string),
    let versionFilePath :=
      join w (join w projectPath "ProjectSettings") "ProjectVersion.txt" in
    (forall e,
        readFileSync w versionFilePath = inl e ->
        getUnityVersion w projectPath =
        Some ([ReadFileSync versionFilePath], Throw (parseError e))) /\
    (forall content,
        readFileSync w versionFilePath = inr content ->
        markerLine content = None ->
        getUnityVersion w projectPath =
        Some ([ReadFileSync versionFilePath], Throw (parseError undefinedTrim))) /\
    (forall content line field,
        readFileSync w versionFilePath = inr content ->
        markerLine content = Some line ->
        nth_error (JS.split space line) 1 = Some field ->
        getUnityVersion w projectPath =
        Some ([ReadFileSync versionFilePath], Normal (JS.trim field))) /\
    (forall content line,
        readFileSync w versionFilePath = inr content ->
        markerLine content = Some line ->
        nth_error (JS.split space line) 1 = None ->
        getUnityVersion w projectPath =
        Some ([ReadFileSync versionFilePath], Throw (parseError undefinedTrim))).
Proof.
  intros w projectPath versionFilePath. unfold getUnityVersion, markerLine.
  fold versionFilePath. repeat split.
  - intros e He. rewrite He. reflexivity.
  - intros content Hc Hm. rewrite Hc. cbn [bind emit ret app].
    rewrite Hm. reflexivity.
  - intros content line field Hc Hm Hf. rewrite Hc. cbn [bind emit ret app].
    rewrite Hm. cbn [JS.nullish]. rewrite Hf. reflexivity.
  - intros content line Hc Hm Hf. rewrite Hc. cbn [bind emit ret app].
    rewrite Hm. cbn [JS.nullish]. rewrite Hf. reflexivity.
Qed.

Lemma C8_version_reader_witness :
  getUnityVersion editorsWorld "/proj" =
    Some ([ReadFileSync "/proj/ProjectSettings/ProjectVersion.txt"], Normal "2021.3.1f1") /\
  getUnityVersion editorsWorld "/elsewhere" =
    Some ([ReadFileSync "/elsewhere/ProjectSettings/ProjectVersion.txt"],
          Throw (parseError ENOENT)).
Proof.
  destruct (C8_version_reader editorsWorld "/proj") as [_ [_ [Hfield _]]].
  destruct (C8_version_reader editorsWorld "/elsewhere") as [Hmissing _].
  split.
  - apply (Hfield projectVersionText
             ("m_EditorVersion: 2021.3.1f1" +++ String "013" "")
             ("2021.3.1f1" +++ String "013" ""));
      reflexivity.
  - apply (Hmissing ENOENT). reflexivity.
Defined.

(** *** ExecutableLocator, phase 1 *)

Section DirectorySearch.

Variable w : World.
Variable unityVer : string.

Let matches (e : Dirent) : bool := isDirectory e && JS.includes (name e) unityVer.

(** The reverse scan returns at the first matching directory; without one
    it has pushed every directory it met, in the order it met them. *)
Lemma scanEntries_find (d : string) (entries : list Dirent) :
  forall queue,
    scanEntries (join w) d unityVer entries queue =
    match find matches entries with
    | Some e => inl (join w d (name e))
    | None => inr (queue ++ map (fun e => join w d (name e)) (filter isDirectory entries))
    end.
Proof.
  induction entries as [|e entries IH]; intros queue; simpl.
  - now rewrite app_nil_r.
  - unfold matches at 1. destruct (isDirectory e); simpl.
    + destruct (JS.includes (name e) unityVer); [reflexivity|].
      rewrite IH. destruct (find matches entries); [reflexivity|].
      now rewrite <- app_assoc.
    + apply IH.
Qed.

(** One turn of the [while] loop. *)
Lemma searchQueue_step (fuel : nat) (d : string) (queue : list string) :
  searchQueue w (S fuel) unityVer (d :: queue) =
  match visit w unityVer d with
  | Some r => Some ([ReaddirSync d], r)
  | None => after (ReaddirSync d) (searchQueue w fuel unityVer (queue ++ subdirs w d))
  end.
Proof.
  cbn [searchQueue]. rewrite bind_emit. unfold visit, subdirs.
  destruct (readdirSync w d) as [e|entries].
  - destruct (isPermissionError e); [now rewrite app_nil_r | reflexivity].
  - rewrite scanEntries_find. fold matches.
    destruct (find matches (rev entries)); reflexivity.
Qed.

Lemma searchQueue_levels (n : nat) :
  forall (cur acc : list string) (fuel : nat),
    nthLevel w n (acc ++ nextLevel w cur) = [] ->
    length (cur ++ levels w n (acc ++ nextLevel w cur)) < fuel ->
    searchQueue w fuel unityVer (cur ++ acc) =
    Some (map ReaddirSync
            (fst (firstVerdict w unityVer (cur ++ levels w n (acc ++ nextLevel w cur)))),
          snd (firstVerdict w unityVer (cur ++ levels w n (acc ++ nextLevel w cur)))).
Proof.
  induction n as [|n IHn]; induction cur as [|d cur IHcur]; intros acc fuel Hempty Hfuel.
  - (* nothing left in this level, and no level below *)
    cbn in Hempty. rewrite app_nil_r in Hempty. subst acc.
    destruct fuel; [cbn in Hfuel; lia | reflexivity].
  - destruct fuel as [|fuel]; [cbn in Hfuel; lia|].
    cbn [app]. rewrite searchQueue_step. cbn [firstVerdict].
    destruct (visit w unityVer d); [reflexivity|].
    rewrite <- app_assoc.
    rewrite IHcur.
    + cbn [nextLevel flat_map]. unfold nextLevel. rewrite <- app_assoc. reflexivity.
    + cbn [nextLevel flat_map] in Hempty. unfold nextLevel in *.
      now rewrite <- app_assoc.
    + cbn [nextLevel flat_map app length] in Hfuel. unfold nextLevel in *.
      rewrite <- app_assoc. lia.
  - (* this level is done: the queue is exactly the next level *)
    cbn [app nextLevel flat_map] in *. rewrite app_nil_r in *.
    cbn [levels nthLevel] in *.
    specialize (IHn acc [] fuel). rewrite app_nil_r in IHn. cbn [app] in IHn.
    now apply IHn.
  - destruct fuel as [|fuel]; [cbn in Hfuel; lia|].
    cbn [app]. rewrite searchQueue_step. cbn [firstVerdict].
    destruct (visit w unityVer d); [reflexivity|].
    rewrite <- app_assoc.
    rewrite IHcur.
    + cbn [nextLevel flat_map]. unfold nextLevel. rewrite <- app_assoc. reflexivity.
    + cbn [nextLevel flat_map] in Hempty. unfold nextLevel in *.
      now rewrite <- app_assoc.
    + cbn [nextLevel flat_map app length] in Hfuel. unfold nextLevel in *.
      rewrite <- app_assoc. lia.
Qed.

End DirectorySearch.

(** C1: the phase-1 search lists directories level by level, each level in
    the order its directories were pushed (last listed first), stops at the
    first listing that decides (the first subdirectory, last listed first,
    whose name contains the version), and answers "not found" once the
    queue is empty; of the siblings [2021.3.1f1] and [2021.3.10f1] it
    returns [2021.3.1f1] whichever is listed first. *)
Theorem C1_directory_search :
  (forall (w : World) (unityVer dir : string) (n fuel : nat),
      nthLevel w n [dir] = [] ->
      length (levels w n [dir]) < fuel ->
      findUnityDirectory w fuel dir unityVer =
      Some (map ReaddirSync (fst (firstVerdict w unityVer (levels w n [dir]))),
            snd (firstVerdict w unityVer (levels w n [dir])))) /\
  (forall (w : World) (root : string) (fuel : nat),
      readdirSync w root = inr [folder "2021.3.1f1"; folder "2021.3.10f1"] \/
      readdirSync w root = inr [folder "2021.3.10f1"; folder "2021.3.1f1"] ->
      findUnityDirectory w (S fuel) root "2021.3.1f1" =
      Some ([ReaddirSync root], Normal (Some (join w root "2021.3.1f1")))).
Proof.
  split.
  - intros w unityVer dir [|n] fuel Hempty Hfuel; [discriminate|].
    unfold findUnityDirectory.
    apply (searchQueue_levels w unityVer n [dir] [] fuel); assumption.
  - intros w root fuel H. unfold findUnityDirectory.
    rewrite searchQueue_step. unfold visit.
    destruct H as [H|H]; rewrite H; reflexivity.
Qed.

Lemma C1_directory_search_witness :
  nthLevel editorsWorld 4 ["/opt"] = [] /\
  findUnityDirectory editorsWorld 7 "/opt" "2021.3.1f1" =
  Some ([ReaddirSync "/opt"; ReaddirSync "/opt/Editors"],
        Normal (Some "/opt/Editors/2021.3.1f1")).
Proof.
  split; [reflexivity|].
  rewrite (proj1 C1_directory_search editorsWorld "2021.3.1f1" "/opt" 4 7).
  - reflexivity.
  - reflexivity.
  - vm_compute. lia.
Defined.

(** A search that raises does so on its last listing, with an error that
    is not a permission error. *)
Lemma searchQueue_throw (w : World) (unityVer : string) (fuel : nat) :
  forall (queue : list string) (t : list effect) (e : Error),
    searchQueue w fuel unityVer queue = Some (t, Throw e) ->
    isPermissionError e = false /\
    exists t' d, t = t' ++ [ReaddirSync d] /\ readdirSync w d = inl e.
Proof.
  induction fuel as [|fuel IH]; intros queue t e H; [discriminate|].
  destruct queue as [|d queue]; [discriminate|].
  rewrite searchQueue_step in H. unfold visit in H.
  destruct (readdirSync w d) as [e'|entries] eqn:Hd.
  - destruct (isPermissionError e') eqn:Hp.
    + destruct (searchQueue w fuel unityVer (queue ++ subdirs w d))
        as [[t1 r1]|] eqn:Hrest; [|discriminate].
      cbn [after] in H. inversion H; subst.
      destruct (IH _ _ _ Hrest) as [Hperm [t' [d' [Ht' Hd']]]].
      split; [assumption|]. exists (ReaddirSync d :: t'), d'. subst t1. now split.
    + inversion H; subst. split; [assumption|]. exists [], d. now split.
  - destruct (find _ (rev entries)); [discriminate|].
    destruct (searchQueue w fuel unityVer (queue ++ subdirs w d))
      as [[t1 r1]|] eqn:Hrest; [|discriminate].
    cbn [after] in H. inversion H; subst.
    destruct (IH _ _ _ Hrest) as [Hperm [t' [d' [Ht' Hd']]]].
    split; [assumption|]. exists (ReaddirSync d :: t'), d'. subst t1. now split.
Qed.

(** C3: when listing a directory taken from the queue fails with a
    permission error ([EPERM] or [EACCES]) the search goes on with the rest
    of the queue, exactly as for an empty directory; any other listing
    error is raised at once, the failed listing being the last action of
    the search; and a search never raises a permission error. *)
Theorem C3_listing_errors :
  forall (w : World) (unityVer : string),
    (forall fuel d queue e,
        readdirSync w d = inl e -> isPermissionError e = true ->
        searchQueue w (S fuel) unityVer (d :: queue) =
        after (ReaddirSync d) (searchQueue w fuel unityVer queue)) /\
    (forall fuel d queue,
        readdirSync w d = inr [] ->
        searchQueue w (S fuel) unityVer (d :: queue) =
        after (ReaddirSync d) (searchQueue w fuel unityVer queue)) /\
    (forall fuel d queue e,
        readdirSync w d = inl e -> isPermissionError e = false ->
        searchQueue w (S fuel) unityVer (d :: queue) =
        Some ([ReaddirSync d], Throw e)) /\
    (forall fuel dir t e,
        findUnityDirectory w fuel dir unityVer = Some (t, Throw e) ->
        isPermissionError e = false /\
        exists t' d, t = t' ++ [ReaddirSync d] /\ readdirSync w d = inl e).
Proof.
  intros w unityVer. repeat split.
  - intros fuel d queue e Hd Hp. rewrite searchQueue_step.
    unfold visit, subdirs. rewrite Hd, Hp. now rewrite app_nil_r.
  - intros fuel d queue Hd. rewrite searchQueue_step.
    unfold visit, subdirs. rewrite Hd. cbn. now rewrite app_nil_r.
  - intros fuel d queue e Hd Hp. rewrite searchQueue_step.
    unfold visit. now rewrite Hd, Hp.
  - eapply searchQueue_throw; eassumption.
  - eapply searchQueue_throw; eassumption.
Qed.

Lemma C3_listing_errors_witness :
  searchQueue editorsWorld 2 "2021.3.1f1" ["/opt/Hub"] =
    Some ([ReaddirSync "/opt/Hub"], Normal None) /\
  searchQueue brokenWorld 3 "2021.3.1f1" ["/opt/B"; "/opt/A"] =
    Some ([ReaddirSync "/opt/B"], Throw EIO) /\
  findUnityDirectory brokenWorld 3 "/opt" "2021.3.1f1" =
    Some ([ReaddirSync "/opt"; ReaddirSync "/opt/B"], Throw EIO) /\
  isPermissionError EIO = false.
Proof.
  destruct (C3_listing_errors editorsWorld "2021.3.1f1") as [Hskip _].
  destruct (C3_listing_errors brokenWorld "2021.3.1f1") as [_ [_ [Hraise Hlast]]].
  split.
  - rewrite (Hskip 1 "/opt/Hub" [] EACCES); reflexivity.
  - split.
    + rewrite (Hraise 2 "/opt/B" ["/opt/A"] EIO); reflexivity.
    + split; [reflexivity|].
      apply (Hlast 3 "/opt" [ReaddirSync "/opt"; ReaddirSync "/opt/B"] EIO).
      reflexivity.
Defined.

(** *** ExecutableLocator, phase 2 *)




Section ExecutableSearch.

Variable w : World.
Variable executableName : string.

(** Node's [existsSync] answers [false] for the empty path. *)
Hypothesis existsSync_empty : existsSync w "" = false.


(** One call of [findUnityExecutable]. *)
Lemma findUnityExecutable_step (fuel : nat) (unityDir : string) :
  findUnityExecutable w (S fuel) unityDir executableName =
  after (ExistsSync (join w unityDir executableName))
    (if existsSync w (join w unityDir executableName)
     then ret (Some (join w unityDir executableName))
     else after (ReaddirSync unityDir)
            match readdirSync w unityDir with
            | inl error => throw error
            | inr entries =>
                firstTruthy (join w)
                  (fun subDir => findUnityExecutable w fuel subDir executableName)
                  unityDir entries
            end).
Proof.
  cbn [findUnityExecutable]. rewrite bind_emit.
  destruct (existsSync w (join w unityDir executableName)); [reflexivity|].
  now rewrite bind_emit.
Qed.











End ExecutableSearch.




(** *** ArgumentBuilder *)

Lemma skipn_nth_error_cons (A : Type) (l : list A) (i : nat) (x : A) :
  nth_error l i = Some x -> skipn i l = x :: skipn (S i) l.
Proof.
  revert i; induction l as [|a l IH]; intros [|i] H; simpl in H; try discriminate.
  - now inversion H.
  - now apply IH.
Qed.

Lemma skipn_nth_error_nil (A : Type) (l : list A) (i : nat) :
  nth_error l i = None -> skipn i l = [].
Proof.
  intros H. apply skipn_all2. now apply nth_error_None.
Qed.

(** The indexed loop computes the non-empty-value rule on the tokens that
    remain from index [i] on, for any fuel that covers them. *)
Lemma tokenLoop_reparse (fuel : nat) :
  forall (tokens : list string) (i : nat) (args : list string),
    length tokens - i <= fuel ->
    tokenLoop fuel tokens i args = Some (args ++ reparse (skipn i tokens)).
Proof.
  induction fuel as [|fuel IH]; intros tokens i args Hfuel; simpl.
  - destruct (nth_error tokens i) eqn:E.
    + assert (i < length tokens) by (apply nth_error_Some; congruence). lia.
    + rewrite (skipn_nth_error_nil _ _ _ E). simpl. now rewrite app_nil_r.
  - destruct (nth_error tokens i) as [token|] eqn:E.
    2:{ rewrite (skipn_nth_error_nil _ _ _ E). simpl. now rewrite app_nil_r. }
    assert (Hi : i < length tokens) by (apply nth_error_Some; congruence).
    rewrite (skipn_nth_error_cons _ _ _ _ E).
    replace (i + 1) with (S i) by lia.
    destruct (nth_error tokens (S i)) as [value|] eqn:E2.
    + rewrite (skipn_nth_error_cons _ _ _ _ E2). cbn [reparse].
      destruct (JS.startsWith token "-") eqn:Edash.
      2:{ rewrite IH by lia. now rewrite (skipn_nth_error_cons _ _ _ _ E2). }
      cbn [JS.truthyOpt JS.nullish].
      destruct (JS.truthy value && negb (JS.startsWith value "-")) eqn:Etakes.
      * rewrite E2. cbn [JS.nullish].
        apply andb_true_iff in Etakes. destruct Etakes as [Hv _]. rewrite Hv.
        replace (S i + 1) with (S (S i)) by lia.
        rewrite IH by lia. now rewrite <- app_assoc.
      * cbn [JS.truthy]. replace (i + 1) with (S i) by lia.
        rewrite IH by lia. rewrite <- app_assoc.
        now rewrite (skipn_nth_error_cons _ _ _ _ E2).
    + rewrite (skipn_nth_error_nil _ _ _ E2). cbn [reparse].
      destruct (JS.startsWith token "-") eqn:Edash.
      2:{ rewrite IH by lia. now rewrite (skipn_nth_error_nil _ _ _ E2). }
      cbn [JS.truthyOpt andb JS.truthy]. replace (i + 1) with (S i) by lia.
      rewrite IH by lia. rewrite (skipn_nth_error_nil _ _ _ E2).
      now rewrite <- app_assoc.
Qed.

Lemma getBuildArguments_reparse (projectPath executeMethod customOptions : string) :
  getBuildArguments projectPath executeMethod customOptions =
  Some (fixedArgs projectPath executeMethod ++ reparse (customTokens customOptions)).
Proof.
  unfold getBuildArguments.
  rewrite tokenLoop_reparse by lia. simpl skipn.
  destruct customOptions; reflexivity.
Qed.

Lemma reparse_step (t v : string) (ts : list string) :
  reparse (t :: v :: ts) =
  if JS.startsWith t "-" then
    if JS.truthy v && negb (JS.startsWith v "-")
    then (t +++ " " +++ v) :: reparse ts
    else t :: reparse (v :: ts)
  else reparse (v :: ts).
Proof. reflexivity. Qed.

Lemma reparseAsStated_step (t v : string) (ts : list string) :
  reparseAsStated (t :: v :: ts) =
  if JS.startsWith t "-" then
    if negb (JS.startsWith v "-")
    then (t +++ " " +++ v) :: reparseAsStated ts
    else t :: reparseAsStated (v :: ts)
  else reparseAsStated (v :: ts).
Proof. reflexivity. Qed.

(** On token lists without an empty token the two rules agree. *)
Lemma reparse_agrees (tokens : list string) :
  forallb JS.truthy tokens = true -> reparse tokens = reparseAsStated tokens.
Proof.
  assert (G : forall n ts, length ts <= n -> forallb JS.truthy ts = true ->
                           reparse ts = reparseAsStated ts).
  { induction n as [|n IH]; intros [|t [|v ts]] Hl Hne; try reflexivity;
      cbn [length] in Hl; try lia.
    rewrite reparse_step, reparseAsStated_step.
    cbn [forallb] in Hne.
    apply andb_true_iff in Hne. destruct Hne as [_ Hts].
    assert (Hts' := Hts). apply andb_true_iff in Hts'. destruct Hts' as [Hv Hts'].
    rewrite Hv. cbn [andb].
    rewrite (IH (v :: ts)) by first [exact Hts | cbn [length]; lia].
    rewrite (IH ts) by first [exact Hts' | lia].
    reflexivity. }
  intros H. now apply (G (length tokens)).
Qed.

(** C4 (as stated, refuted): with two consecutive spaces the token after
    the flag exists, is empty and does not start with a dash; the rule as
    worded joins it to the flag and yields the entry ["-a "], the program
    emits the flag alone. *)
Lemma C4_empty_value_counterexample :
  getBuildArguments "p" "m" "-a  b" = Some (fixedArgs "p" "m" ++ ["-a"]) /\
  fixedArgs "p" "m" ++ reparseAsStated (JS.split space "-a  b")
    = fixedArgs "p" "m" ++ ["-a "] /\
  getBuildArguments "p" "m" "-a  b"
    <> Some (fixedArgs "p" "m" ++ reparseAsStated (JS.split space "-a  b")).
Proof.
  repeat split; try reflexivity. vm_compute. discriminate.
Qed.

(** C4 (amended): for every custom options string the argument list is the
    fixed prefix followed by the re-parsed tokens in their original order,
    where a token starting with a dash begins a flag, a following token
    that exists, is not empty and does not start with a dash is consumed as
    its value and joined to it with one space, a flag without such a token
    is emitted alone, and every other token is dropped; the sample string
    yields ["-test"], ["-targetPlatform StandaloneWindows64"] and
    ["-quit"] after the prefix. *)
Theorem C4_argument_builder :
  (forall projectPath executeMethod customOptions,
      getBuildArguments projectPath executeMethod customOptions =
      Some (fixedArgs projectPath executeMethod ++ reparse (customTokens customOptions))) /\
  (forall projectPath executeMethod,
      getBuildArguments projectPath executeMethod
        "-test -targetPlatform StandaloneWindows64 -quit" =
      Some (fixedArgs projectPath executeMethod ++
            ["-test"; "-targetPlatform StandaloneWindows64"; "-quit"])).
Proof.
  split.
  - apply getBuildArguments_reparse.
  - intros. rewrite getBuildArguments_reparse. reflexivity.
Qed.

(** *** ProcessRunner *)

Lemma dispatch_app (toStr : Buffer -> string) (a b : list child_event) :
  dispatch toStr (a ++ b) = dispatch toStr a ++ dispatch toStr b.
Proof. apply flat_map_app. Qed.

(** A chunk is echoed once and appended once, whatever stream it is from. *)
Lemma dispatch_data (toStr : Buffer -> string) (chunks : list (stream * Buffer)) :
  dispatch toStr (map dataEvent chunks) = flat_map (echoAndAppend toStr) chunks.
Proof.
  unfold dispatch.
  induction chunks as [|[[|] b] chunks IH]; cbn; [reflexivity| |]; now rewrite IH.
Qed.

Lemma logWrites_app (a b : list effect) : logWrites (a ++ b) = logWrites a ++ logWrites b.
Proof.
  induction a as [|e a IH]; [reflexivity|].
  destruct e; cbn; rewrite ?IH; reflexivity.
Qed.

Lemma logWrites_data (toStr : Buffer -> string) (chunks : list (stream * Buffer)) :
  logWrites (flat_map (echoAndAppend toStr) chunks) = map (fun c => toStr (snd c)) chunks.
Proof.
  induction chunks as [|[[|] b] chunks IH]; cbn; [reflexivity| |]; now f_equal.
Qed.

Lemma firstIndex_app (p : effect -> bool) (a b : list effect) :
  firstIndex p (a ++ b) =
  match firstIndex p a with
  | Some i => Some i
  | None => option_map (Nat.add (length a)) (firstIndex p b)
  end.
Proof.
  induction a as [|e a IH]; cbn.
  - destruct (firstIndex p b); reflexivity.
  - destruct (p e); [reflexivity|]. rewrite IH.
    destruct (firstIndex p a); [reflexivity|].
    destruct (firstIndex p b); reflexivity.
Qed.

(** The data listeners never open, start, end or settle anything. *)
Lemma firstIndex_data (toStr : Buffer -> string) (chunks : list (stream * Buffer))
    (p : effect -> bool) :
  (forall s, p (ConsoleLog s) = false) ->
  (forall s, p (ConsoleError s) = false) ->
  (forall s, p (StreamWrite s) = false) ->
  firstIndex p (flat_map (echoAndAppend toStr) chunks) = None.
Proof.
  intros Hlog Herr Hwrite.
  induction chunks as [|[[|] b] chunks IH]; cbn; [reflexivity| |];
    rewrite ?Hlog, ?Herr, ?Hwrite, IH; reflexivity.
Qed.

Lemma length_data (toStr : Buffer -> string) (chunks : list (stream * Buffer)) :
  length (flat_map (echoAndAppend toStr) chunks) = 2 * length chunks.
Proof.
  induction chunks as [|c chunks IH]; cbn [flat_map length echoAndAppend app]; lia.
Qed.

Lemma await_data (toStr : Buffer -> string) (chunks : list (stream * Buffer))
    (t : list effect) :
  await (flat_map (echoAndAppend toStr) chunks ++ t) = await t.
Proof.
  induction chunks as [|[[|] b] chunks IH]; cbn; [reflexivity| |]; exact IH.
Qed.

Lemma handleRun_data (toStr : Buffer -> string) (chunks : list (stream * Buffer))
    (h : handle) (n : nat) (t : list effect) :
  handleRun h n (flat_map (echoAndAppend toStr) chunks ++ t) = handleRun h n t.
Proof.
  induction chunks as [|[[|] b] chunks IH]; cbn; [reflexivity| |]; exact IH.
Qed.

(** Once the handle has been closed no listener opens or closes it again. *)
Lemma handleRun_ended (toStr : Buffer -> string) (events : list child_event) (n : nat) :
  handleRun Ended n (dispatch toStr events) = (Ended, n).
Proof.
  induction events as [|[b|b|c|e] events IH]; cbn; try exact IH; [reflexivity|].
  destruct c as [[| |]|]; exact IH.
Qed.

Lemma endCalls_app (a b : list effect) : endCalls (a ++ b) = endCalls a + endCalls b.
Proof.
  unfold endCalls. now rewrite filter_app, length_app.
Qed.

Lemma endCalls_data (toStr : Buffer -> string) (chunks : list (stream * Buffer)) :
  endCalls (flat_map (echoAndAppend toStr) chunks) = 0.
Proof.
  induction chunks as [|[[|] b] chunks IH]; cbn; [reflexivity| |]; exact IH.
Qed.

Lemma onEvent_terminal (toStr : Buffer -> string) (t : terminal) :
  exists line, onEvent toStr (terminalEvent t) = [line; StreamEnd; settlement t] /\
               isStreamEnd line = false /\ isSettle line = false /\
               isOpen line = false /\ isSpawn line = false.
Proof.
  destruct t as [[[| |]|]|e]; cbn; eexists; repeat split.
Qed.

Section Runner.

Variable w : World.
Variables (executable : string) (args : list string) (projectPath logPath : string).

Let events : list child_event :=
  child w (dquote +++ executable +++ dquote) args projectPath.

(** With the log directory in place the runner opens the log, starts the
    child and lets the listeners run. *)
Lemma executeUnityBuild_launch :
  logDirReady w projectPath logPath ->
  executeUnityBuild w executable args projectPath logPath =
  Some (launchTrace w executable args projectPath logPath ++ dispatch (toString w) events,
        await (dispatch (toString w) events)).
Proof.
  unfold logDirReady, executeUnityBuild, launchTrace. fold events.
  set (full := join w projectPath logPath).
  set (dir := dirname w full).
  intros Hready. rewrite !bind_emit.
  destruct (existsSync w dir) eqn:Hdir; cbn [negb].
  - rewrite bind_ret_l. reflexivity.
  - destruct Hready as [Hyes|Hmk]; [discriminate|].
    rewrite Hmk. reflexivity.
Qed.

(** Without it the runner throws before it opens the log or starts
    anything. *)
Lemma executeUnityBuild_no_dir (e : Error) :
  existsSync w (dirname w (join w projectPath logPath)) = false ->
  mkdirSync w (dirname w (join w projectPath logPath)) = Some e ->
  executeUnityBuild w executable args projectPath logPath =
  Some ([ConsoleLog ("Creating log file. Path: " +++ join w projectPath logPath);
         ExistsSync (dirname w (join w projectPath logPath));
         MkdirSync (dirname w (join w projectPath logPath))],
        Throw e).
Proof.
  intros Hdir Hmk. unfold executeUnityBuild. rewrite !bind_emit, Hdir. cbn [negb].
  rewrite Hmk. reflexivity.
Qed.

Lemma launchTrace_indices :
  exists i,
    firstIndex isOpen (launchTrace w executable args projectPath logPath) = Some i /\
    firstIndex isSpawn (launchTrace w executable args projectPath logPath) = Some (i + 2) /\
    firstIndex isStreamEnd (launchTrace w executable args projectPath logPath) = None /\
    firstIndex isSettle (launchTrace w executable args projectPath logPath) = None /\
    length (launchTrace w executable args projectPath logPath) = i + 3 /\
    handleRun NotOpened 0 (launchTrace w executable args projectPath logPath) = (Opened, 0) /\
    endCalls (launchTrace w executable args projectPath logPath) = 0.
Proof.
  unfold launchTrace.
  destruct (existsSync w (dirname w (join w projectPath logPath)));
    [exists 2 | exists 3]; repeat split.
Qed.

End Runner.

Lemma handleRun_app (a b : list effect) :
  forall h n,
    handleRun h n (a ++ b) = handleRun (fst (handleRun h n a)) (snd (handleRun h n a)) b.
Proof.
  induction a as [|e a IH]; intros h n; [reflexivity|].
  destruct e; cbn; try apply IH. destruct h; apply IH.
Qed.

Lemma handleRun_skip (line : effect) (t : list effect) (h : handle) (n : nat) :
  isOpen line = false -> isStreamEnd line = false ->
  handleRun h n (line :: t) = handleRun h n t.
Proof.
  destruct line; cbn; intros; try reflexivity; discriminate.
Qed.

Lemma await_skip (line : effect) (t : list effect) :
  isSettle line = false -> await (line :: t) = await t.
Proof.
  destruct line; cbn; intros; try reflexivity; discriminate.
Qed.

Lemma await_settlement (t : terminal) (rest : list effect) :
  await (StreamEnd :: settlement t :: rest) = outcome t.
Proof. destruct t; reflexivity. Qed.

Lemma handleRun_settlement (t : terminal) (rest : list effect) (h : handle) (n : nat) :
  handleRun h n (settlement t :: rest) = handleRun h n rest.
Proof. destruct t; reflexivity. Qed.

Lemma handleRun_close (rest : list effect) (n : nat) :
  handleRun Opened n (StreamEnd :: rest) = handleRun Ended (S n) rest.
Proof. reflexivity. Qed.

Lemma isSettle_settlement (t : terminal) : isSettle (settlement t) = true.
Proof. destruct t; reflexivity. Qed.

Lemma logWrites_launch (w : World) (executable : string) (args : list string)
    (projectPath logPath : string) :
  logWrites (launchTrace w executable args projectPath logPath) = [].
Proof.
  unfold launchTrace.
  destruct (existsSync w (dirname w (join w projectPath logPath))); reflexivity.
Qed.

Lemma logWrites_terminal (toStr : Buffer -> string) (t : terminal) :
  logWrites (onEvent toStr (terminalEvent t)) = [].
Proof. destruct t as [[[| |]|]|e]; reflexivity. Qed.

(** C6: in every run that gets as far as the spawn and whose child ends
    (it closes with any code, or fails to start), the log is opened before
    the spawn, the first [end()] comes after the spawn and before the
    promise is settled, the handle goes from open to closed exactly once
    whatever the runtime still delivers afterwards, and [end()] is called
    exactly once when the terminal event is the last one. *)
Theorem C6_log_handle_closed_once :
  forall (w : World) (executable : string) (args : list string)
         (projectPath logPath : string)
         (chunks : list (stream * Buffer)) (t : terminal) (more : list child_event),
    logDirReady w projectPath logPath ->
    child w (dquote +++ executable +++ dquote) args projectPath =
      map dataEvent chunks ++ terminalEvent t :: more ->
    exists tr i j k l,
      executeUnityBuild w executable args projectPath logPath = Some (tr, outcome t) /\
      firstIndex isOpen tr = Some i /\
      firstIndex isSpawn tr = Some j /\
      firstIndex isStreamEnd tr = Some k /\
      firstIndex isSettle tr = Some l /\
      i < j /\ j < k /\ k < l /\
      handleCloses tr = (Ended, 1) /\
      (more = [] -> endCalls tr = 1).
Proof.
  intros w executable args projectPath logPath chunks t more Hready Hchild.
  rewrite (executeUnityBuild_launch w executable args projectPath logPath Hready), Hchild.
  destruct (launchTrace_indices w executable args projectPath logPath)
    as [i [Hopen [Hspawn [Hend [Hsettle [Hlen [Hhandle Hcalls]]]]]]].
  set (L := launchTrace w executable args projectPath logPath) in *.
  rewrite dispatch_app, dispatch_data.
  set (D := flat_map (echoAndAppend (toString w)) chunks).
  change (dispatch (toString w) (terminalEvent t :: more))
    with (onEvent (toString w) (terminalEvent t) ++ dispatch (toString w) more).
  destruct (onEvent_terminal (toString w) t)
    as [line [Hline [HlineEnd [HlineSettle [HlineOpen HlineSpawn]]]]].
  rewrite Hline.
  exists (L ++ D ++ [line; StreamEnd; settlement t] ++ dispatch (toString w) more),
    i, (i + 2), (i + 3 + 2 * length chunks + 1), (i + 3 + 2 * length chunks + 2).
  assert (HDend : firstIndex isStreamEnd D = None) by (now apply firstIndex_data).
  assert (HDsettle : firstIndex isSettle D = None) by (now apply firstIndex_data).
  assert (HDlen : length D = 2 * length chunks) by apply length_data.
  repeat split.
  - f_equal. f_equal. unfold D. rewrite await_data. cbn [app].
    rewrite await_skip by assumption. apply await_settlement.
  - rewrite firstIndex_app, Hopen. reflexivity.
  - rewrite firstIndex_app, Hspawn. reflexivity.
  - rewrite firstIndex_app, Hend, firstIndex_app, HDend, Hlen, HDlen.
    cbn [app firstIndex]. rewrite HlineEnd. cbn [isStreamEnd option_map].
    f_equal. lia.
  - rewrite firstIndex_app, Hsettle, firstIndex_app, HDsettle, Hlen, HDlen.
    cbn [app firstIndex]. rewrite HlineSettle. cbn [isSettle].
    rewrite isSettle_settlement. cbn [option_map]. f_equal. lia.
  - lia.
  - lia.
  - lia.
  - unfold handleCloses. rewrite handleRun_app, Hhandle. cbn [fst snd].
    unfold D. rewrite handleRun_data. cbn [app].
    rewrite handleRun_skip by assumption.
    rewrite handleRun_close, handleRun_settlement. apply handleRun_ended.
  - intros ->. cbn [dispatch flat_map]. rewrite app_nil_r.
    rewrite !endCalls_app, Hcalls. unfold D. rewrite endCalls_data.
    unfold endCalls. cbn [filter]. rewrite HlineEnd. cbn [isStreamEnd].
    destruct t; reflexivity.
Qed.

Lemma C6_log_handle_closed_once_witness :
  exists tr i j k l,
    executeUnityBuild unstartedWorld "/opt/Editors/2021.3.1f1/Unity" [] "/proj" "out.log" =
      Some (tr, Throw spawnError) /\
    firstIndex isOpen tr = Some i /\
    firstIndex isSpawn tr = Some j /\
    firstIndex isStreamEnd tr = Some k /\
    firstIndex isSettle tr = Some l /\
    i < j /\ j < k /\ k < l /\
    handleCloses tr = (Ended, 1) /\
    (@cons child_event (CloseEv (Some (-11)%Z)) [] = [] -> endCalls tr = 1).
Proof.
  apply (C6_log_handle_closed_once unstartedWorld "/opt/Editors/2021.3.1f1/Unity" []
           "/proj" "out.log" [] (Failed spawnError) [CloseEv (Some (-11)%Z)]).
  - right. reflexivity.
  - reflexivity.
Defined.

(** C7: the listeners turn every chunk, from either stream, into exactly
    one console line and one append to the log, in arrival order; so in a
    run whose child delivers the chunks and then ends, the log receives the
    text of each chunk once, in the order of arrival. *)
Theorem C7_streaming_log :
  (forall (toStr : Buffer -> string) (chunks : list (stream * Buffer)),
      dispatch toStr (map dataEvent chunks) = flat_map (echoAndAppend toStr) chunks) /\
  (forall (w : World) (executable : string) (args : list string)
          (projectPath logPath : string)
          (chunks : list (stream * Buffer)) (t : terminal),
      logDirReady w projectPath logPath ->
      child w (dquote +++ executable +++ dquote) args projectPath =
        map dataEvent chunks ++ [terminalEvent t] ->
      exists tr,
        traceOf (executeUnityBuild w executable args projectPath logPath) = Some tr /\
        tr = launchTrace w executable args projectPath logPath ++
             flat_map (echoAndAppend (toString w)) chunks ++
             onEvent (toString w) (terminalEvent t) /\
        logWrites tr = map (fun c => toString w (snd c)) chunks).
Proof.
  split; [apply dispatch_data|].
  intros w executable args projectPath logPath chunks t Hready Hchild.
  rewrite (executeUnityBuild_launch w executable args projectPath logPath Hready), Hchild.
  rewrite dispatch_app, dispatch_data.
  change (dispatch (toString w) [terminalEvent t])
    with (onEvent (toString w) (terminalEvent t) ++ []).
  rewrite app_nil_r.
  eexists. split; [reflexivity|]. split; [reflexivity|]. cbn [fst].
  rewrite !logWrites_app, logWrites_launch, logWrites_data, logWrites_terminal.
  cbn [app]. now rewrite app_nil_r.
Qed.

Lemma C7_streaming_log_witness :
  exists tr,
    traceOf (executeUnityBuild failingWorld "/opt/Editors/2021.3.1f1/Unity" [] "/proj" "out.log")
      = Some tr /\
    tr = launchTrace failingWorld "/opt/Editors/2021.3.1f1/Unity" [] "/proj" "out.log" ++
         [ConsoleLog "Compiling"; StreamWrite "Compiling";
          ConsoleError "error CS1002"; StreamWrite "error CS1002";
          ConsoleLog "Aborting"; StreamWrite "Aborting"] ++
         onEvent (toString failingWorld) (CloseEv (Some 3%Z)) /\
    logWrites tr = ["Compiling"; "error CS1002"; "Aborting"].
Proof.
  apply (proj2 C7_streaming_log failingWorld "/opt/Editors/2021.3.1f1/Unity" []
           "/proj" "out.log"
           [(Stdout, list_byte_of_string "Compiling");
            (Stderr, list_byte_of_string "error CS1002");
            (Stdout, list_byte_of_string "Aborting")]
           (Closed (Some 3%Z))).
  - right. reflexivity.
  - reflexivity.
Defined.

(** C10: a close event that carries no exit code resolves the runner's
    promise with 1, whatever chunks came before and whatever is delivered
    after. *)
Theorem C10_null_exit_code :
  (forall (toStr : Buffer -> string) (chunks : list (stream * Buffer))
          (more : list child_event),
      await (dispatch toStr (map dataEvent chunks ++ CloseEv None :: more)) = Normal 1%Z) /\
  (forall (w : World) (executable : string) (args : list string)
          (projectPath logPath : string)
          (chunks : list (stream * Buffer)) (more : list child_event),
      logDirReady w projectPath logPath ->
      child w (dquote +++ executable +++ dquote) args projectPath =
        map dataEvent chunks ++ CloseEv None :: more ->
      resultOf (executeUnityBuild w executable args projectPath logPath) =
      Some (Normal 1%Z)).
Proof.
  assert (H : forall toStr chunks more,
             await (dispatch toStr (map dataEvent chunks ++ CloseEv None :: more))
             = Normal 1%Z).
  { intros. rewrite dispatch_app, dispatch_data, await_data. reflexivity. }
  split; [exact H|].
  intros w executable args projectPath logPath chunks more Hready Hchild.
  rewrite (executeUnityBuild_launch w executable args projectPath logPath Hready), Hchild.
  cbn [resultOf option_map snd]. now rewrite H.
Qed.

Lemma C10_null_exit_code_witness :
  resultOf (executeUnityBuild killedWorld "/opt/Editors/2021.3.1f1/Unity" [] "/proj" "out.log")
  = Some (Normal 1%Z).
Proof.
  apply (proj2 C10_null_exit_code killedWorld "/opt/Editors/2021.3.1f1/Unity" []
           "/proj" "out.log"
           [(Stdout, list_byte_of_string "Compiling");
            (Stderr, list_byte_of_string "warning")] []).
  - right. reflexivity.
  - reflexivity.
Defined.

(** *** Orchestrator *)

Lemma bind_assoc (A B C : Type) (m : M A) (f : A -> M B) (g : B -> M C) :
  bind (bind m f) g = bind m (fun a => bind (f a) g).
Proof.
  destruct m as [[t [a|e|]]|]; cbn; try reflexivity.
  destruct (f a) as [[t' [b|e|]]|]; cbn; try reflexivity.
  destruct (g b) as [[t'' r]|]; cbn; [|reflexivity].
  now rewrite app_assoc.
Qed.

Lemma bind_ext (A B : Type) (m : M A) (f g : A -> M B) :
  (forall a, f a = g a) -> bind m f = bind m g.
Proof.
  intros H. destruct m as [[t [a|e|]]|]; cbn; try reflexivity. now rewrite H.
Qed.

Lemma exitStatus_last (t : list effect) (status : Z) :
  exitStatus (t ++ [ProcessExit status]) = Some status.
Proof.
  unfold exitStatus. now rewrite rev_app_distr.
Qed.

Section Orchestrator.

Variable w : World.
Variable fuel : nat.

(** [main] is its preparation followed by the runner and the exit. *)
Lemma main_prepare :
  main w fuel =
  tryCatch
    (l <- prepare w fuel ;;
     result <- executeUnityBuild w (unityExecutable l) (buildArgs l)
                 (launchProjectPath l) (launchLogPath l) ;;
     emit (ProcessExit result))
    (fun error =>
       emit (ConsoleError ("Error: " +++ message error)) ;;
       emit (ProcessExit 1%Z)).
Proof.
  unfold main, prepare. f_equal. cbv zeta.
  repeat (rewrite bind_assoc; apply bind_ext; intros ?).
  now rewrite bind_ret_l.
Qed.


(** Once prepared, the run is decided by how the runner's promise ends. *)
Lemma main_launched (t : list effect) (l : launch) :
  prepare w fuel = Some (t, Normal l) ->
  logDirReady w (launchProjectPath l) (launchLogPath l) ->
  let run :=
    launchTrace w (unityExecutable l) (buildArgs l) (launchProjectPath l) (launchLogPath l) ++
    dispatch (toString w) (child w (commandOf l) (buildArgs l) (launchProjectPath l)) in
  main w fuel =
  match await (dispatch (toString w)
                 (child w (commandOf l) (buildArgs l) (launchProjectPath l))) with
  | Normal status => Some (t ++ run ++ [ProcessExit status], Normal tt)
  | Throw e => Some (t ++ run ++ report e, Normal tt)
  | Suspended => Some (t ++ run, Suspended)
  end.
Proof.
  intros Hprep Hready run. rewrite main_prepare, Hprep.
  cbn [bind tryCatch].
  rewrite (executeUnityBuild_launch w _ _ _ _ Hready). fold (commandOf l). fold run.
  destruct (await _) as [status|e|]; cbn [bind tryCatch emit];
    rewrite <- ?app_assoc; reflexivity.
Qed.

End Orchestrator.

(** How [main] gets ready, from what its stages answer. *)
Lemma prepare_stages (w : World) (fuel : nat) (root version : string)
    (tv te : list effect) (found : option string) :
  getUnityInstallDir w (env_unity_install_dir w) = Some ([], Normal root) ->
  chdir w (projectPathOf w) = None ->
  getUnityVersion w (projectPathOf w) = Some (tv, Normal version) ->
  getUnityExecutable w fuel root version = Some (te, Normal found) ->
  prepare w fuel =
  Some ([ConsoleLog ("Unity project path used: " +++ projectPathOf w);
         Chdir (projectPathOf w)] ++ tv ++
        [ConsoleLog ("Unity version used: " +++ version)] ++ te ++
        [ConsoleLog ("Unity Executable: " +++ JS.nullish found "");
         ConsoleLog ("Arguments: " +++ String.concat " " (argumentsOf w))],
        Normal (mkLaunch (JS.nullish found "") (argumentsOf w)
                  (projectPathOf w) (logPathOf w))).
Proof.
  intros Hroot Hcd Hver Hexe. unfold prepare. fold (projectPathOf w) (logPathOf w).
  rewrite Hroot. change (Some ([], Normal root)) with (ret root).
  rewrite bind_ret_l, !bind_emit, Hcd. cbv iota. rewrite bind_ret_l, Hver.
  cbn [bind]. rewrite Hexe. cbn [bind].
  rewrite getBuildArguments_reparse. fold (argumentsOf w).
  cbn [liftFuel]. rewrite bind_ret_l, !bind_emit. cbn [after ret app].
  reflexivity.
Qed.

Lemma exitStatus_report (t : list effect) (e : Error) :
  exitStatus (t ++ report e) = Some 1%Z.
Proof.
  unfold report.
  change [ConsoleError ("Error: " +++ message e); ProcessExit 1%Z]
    with ([ConsoleError ("Error: " +++ message e)] ++ [ProcessExit 1%Z]).
  rewrite app_assoc. apply exitStatus_last.
Qed.







(* ===================================================================== *)
(** ** Further properties of the locator *)
(* ===================================================================== *)

Lemma in_after (A : Type) (e : effect) (m : M A) (t : list effect) (r : completion A) :
  after e m = Some (t, r) ->
  exists t', m = Some (t', r) /\ t = e :: t'.
Proof.
  destruct m as [[t' r']|]; cbn; intros H; [|discriminate].
  inversion H; subst. now exists t'.
Qed.

Section DirectoryResults.

Variable w : World.
Variable unityVer : string.

(** What a listing can decide is never "not found". *)
Lemma visit_decides (d : string) (r : completion (option string)) :
  visit w unityVer d = Some r ->
  (exists e, r = Throw e /\ readdirSync w d = inl e /\ isPermissionError e = false) \/
  (exists entries e,
      r = Normal (Some (join w d (name e))) /\ readdirSync w d = inr entries /\
      In e entries /\ isDirectory e = true /\ JS.includes (name e) unityVer = true).
Proof.
  unfold visit. destruct (readdirSync w d) as [e|entries] eqn:Hd.
  - destruct (isPermissionError e) eqn:Hp; [discriminate|].
    intros H. inversion H; subst. left. now exists e.
  - destruct (find _ (rev entries)) as [e|] eqn:Hfind; [|discriminate].
    intros H. inversion H; subst. right. exists entries, e.
    apply find_some in Hfind. destruct Hfind as [Hin Hm].
    apply andb_true_iff in Hm. destruct Hm as [Hdir Hinc].
    repeat split; try assumption. now apply in_rev.
Qed.

(** A listing that decides nothing: a permission error, or no directory
    entry with the version in its name. *)
Lemma visit_continues (d : string) :
  visit w unityVer d = None ->
  (forall e, readdirSync w d = inl e -> isPermissionError e = true) /\
  (forall entries e,
      readdirSync w d = inr entries -> In e entries -> isDirectory e = true ->
      JS.includes (name e) unityVer = false /\ In (join w d (name e)) (subdirs w d)).
Proof.
  unfold visit, subdirs. destruct (readdirSync w d) as [e|entries] eqn:Hd.
  - destruct (isPermissionError e) eqn:Hp; [|discriminate].
    intros _. split; [|discriminate]. intros e' H. now inversion H; subst.
  - destruct (find _ (rev entries)) as [e|] eqn:Hfind; [discriminate|].
    intros _. split; [discriminate|].
    intros entries' e H Hin Hdir. inversion H; subst entries'.
    split.
    + assert (Hno := find_none _ _ Hfind e (proj1 (in_rev entries e) Hin)).
      cbn in Hno. rewrite Hdir in Hno. exact Hno.
    + apply (in_map (fun e => join w d (name e))). apply filter_In.
      split; [exact (proj1 (in_rev entries e) Hin)|assumption].
Qed.

Lemma searchQueue_found (fuel : nat) :
  forall (queue : list string) (t : list effect) (p : string),
    searchQueue w fuel unityVer queue = Some (t, Normal (Some p)) ->
    exists t' d entries e,
      t = t' ++ [ReaddirSync d] /\ readdirSync w d = inr entries /\
      In e entries /\ isDirectory e = true /\
      JS.includes (name e) unityVer = true /\ p = join w d (name e).
Proof.
  induction fuel as [|fuel IH]; intros queue t p H; [discriminate|].
  destruct queue as [|d queue]; [discriminate|].
  rewrite searchQueue_step in H.
  destruct (visit w unityVer d) as [r|] eqn:Hv.
  - inversion H; subst. apply visit_decides in Hv.
    destruct Hv as [[e [Hr _]]|[entries [e [Hr [Hd [Hin [Hdir Hinc]]]]]]];
      [discriminate|].
    inversion Hr; subst. exists [], d, entries, e. repeat split; assumption.
  - apply in_after in H.
    destruct H as [t1 [Hrest Ht]].
    destruct (IH _ _ _ Hrest) as [t' [d' [entries [e [Ht1 Hrest']]]]].
    exists (ReaddirSync d :: t'), d', entries, e. subst. now split.
Qed.

Lemma searchQueue_not_found (fuel : nat) :
  forall (queue : list string) (t : list effect),
    searchQueue w fuel unityVer queue = Some (t, Normal None) ->
    (forall d, In d queue -> In (ReaddirSync d) t) /\
    (forall d, In (ReaddirSync d) t ->
       (forall e, readdirSync w d = inl e -> isPermissionError e = true) /\
       (forall entries e,
           readdirSync w d = inr entries -> In e entries -> isDirectory e = true ->
           JS.includes (name e) unityVer = false /\
           In (ReaddirSync (join w d (name e))) t)).
Proof.
  induction fuel as [|fuel IH]; intros queue t H; [discriminate|].
  destruct queue as [|d queue].
  - inversion H; subst. split; intros d [].
  - rewrite searchQueue_step in H.
    destruct (visit w unityVer d) as [r|] eqn:Hv.
    + inversion H; subst. apply visit_decides in Hv.
      destruct Hv as [[e [Hr _]]|[entries [e [Hr _]]]]; discriminate.
    + apply in_after in H.
      destruct H as [t1 [Hrest Ht]]. subst t.
      destruct (IH _ _ Hrest) as [Hqueue Hclosed].
      destruct (visit_continues d Hv) as [Hperm Hsub].
      split.
      * intros d' [<-|Hin]; [now left|].
        right. apply Hqueue. apply in_or_app. now left.
      * intros d' [Heq|Hin].
        -- inversion Heq; subst d'. split; [exact Hperm|].
           intros entries e Hd Hine Hdir.
           destruct (Hsub entries e Hd Hine Hdir) as [Hinc Hpushed].
           split; [exact Hinc|]. right. apply Hqueue. apply in_or_app. now right.
        -- destruct (Hclosed d' Hin) as [Hp Hs]. split; [exact Hp|].
           intros entries e Hd Hine Hdir.
           destruct (Hs entries e Hd Hine Hdir) as [Hinc Hl].
           split; [exact Hinc|now right].
Qed.

End DirectoryResults.

(** X1: a path returned by the phase-1 search is always the join of a
    directory the search has just listed and the name of one of its
    entries, that entry being a directory whose name contains the version;
    the listing of that directory is the last action of the search. *)
Theorem X1_directory_result_sound :
  forall (w : World) (unityVer dir : string) (fuel : nat) (t : list effect) (p : string),
    findUnityDirectory w fuel dir unityVer = Some (t, Normal (Some p)) ->
    exists t' d entries e,
      t = t' ++ [ReaddirSync d] /\ readdirSync w d = inr entries /\
      In e entries /\ isDirectory e = true /\
      JS.includes (name e) unityVer = true /\ p = join w d (name e).
Proof.
  intros w unityVer dir fuel t p H. now apply (searchQueue_found w unityVer fuel [dir]).
Qed.

Lemma X1_directory_result_sound_witness :
  exists t' d entries e,
    [ReaddirSync "/opt"; ReaddirSync "/opt/Editors"] = t' ++ [ReaddirSync d] /\
    readdirSync editorsWorld d = inr entries /\
    In e entries /\ isDirectory e = true /\
    JS.includes (name e) "2021.3.1f1" = true /\
    "/opt/Editors/2021.3.1f1" = join editorsWorld d (name e).
Proof.
  apply (X1_directory_result_sound editorsWorld "2021.3.1f1" "/opt" 7). reflexivity.
Defined.

(** X2: when the phase-1 search answers "not found" it has listed the
    install root and, with every directory it listed, each of that
    directory's subdirectories; none of those subdirectories has the
    version in its name, and every listing that failed failed with a
    permission error. *)
Theorem X2_not_found_is_exhaustive :
  forall (w : World) (unityVer dir : string) (fuel : nat) (t : list effect),
    findUnityDirectory w fuel dir unityVer = Some (t, Normal None) ->
    In (ReaddirSync dir) t /\
    (forall d, In (ReaddirSync d) t ->
       (forall e, readdirSync w d = inl e -> isPermissionError e = true) /\
       (forall entries e,
           readdirSync w d = inr entries -> In e entries -> isDirectory e = true ->
           JS.includes (name e) unityVer = false /\
           In (ReaddirSync (join w d (name e))) t)).
Proof.
  intros w unityVer dir fuel t H.
  destruct (searchQueue_not_found w unityVer fuel [dir] t H) as [Hroot Hclosed].
  split; [apply Hroot; now left|exact Hclosed].
Qed.

Lemma X2_not_found_is_exhaustive_witness :
  findUnityDirectory editorsWorld 7 "/opt" "2022.1" =
    Some ([ReaddirSync "/opt"; ReaddirSync "/opt/Editors"; ReaddirSync "/opt/Hub";
           ReaddirSync "/opt/Editors/2021.3.10f1"; ReaddirSync "/opt/Editors/2021.3.1f1";
           ReaddirSync "/opt/Editors/2021.3.1f1/Editor"], Normal None) /\
  In (ReaddirSync "/opt")
     [ReaddirSync "/opt"; ReaddirSync "/opt/Editors"; ReaddirSync "/opt/Hub";
      ReaddirSync "/opt/Editors/2021.3.10f1"; ReaddirSync "/opt/Editors/2021.3.1f1";
      ReaddirSync "/opt/Editors/2021.3.1f1/Editor"].
Proof.
  split; [reflexivity|].
  apply (X2_not_found_is_exhaustive editorsWorld "2022.1" "/opt" 7). reflexivity.
Defined.

Lemma includes_empty (s : string) : JS.includes s "" = true.
Proof. destruct s; reflexivity. Qed.

Lemma find_ext (A : Type) (p q : A -> bool) (l : list A) :
  (forall a, p a = q a) -> find p l = find q l.
Proof.
  intros H. induction l as [|a l IH]; cbn; [reflexivity|]. now rewrite H, IH.
Qed.

(** X3: with an empty version string every name matches, so the search
    returns at once the last listed directory of the install root. *)
Theorem X3_empty_version_takes_last_directory :
  forall (w : World) (root : string) (fuel : nat) (entries : list Dirent) (e : Dirent),
    readdirSync w root = inr entries ->
    find isDirectory (rev entries) = Some e ->
    findUnityDirectory w (S fuel) root "" =
    Some ([ReaddirSync root], Normal (Some (join w root (name e)))).
Proof.
  intros w root fuel entries e Hroot Hlast. unfold findUnityDirectory.
  rewrite searchQueue_step. unfold visit. rewrite Hroot.
  rewrite (find_ext _ _ isDirectory).
  - now rewrite Hlast.
  - intros a. rewrite includes_empty. apply andb_true_r.
Qed.

Lemma X3_empty_version_takes_last_directory_witness :
  findUnityDirectory editorsWorld 1 "/opt" "" =
  Some ([ReaddirSync "/opt"], Normal (Some "/opt/Editors")).
Proof.
  apply (X3_empty_version_takes_last_directory editorsWorld "/opt" 0
           [folder "Hub"; file "notes.txt"; folder "Editors"] (folder "Editors"));
    reflexivity.
Defined.

(** X4: the name of the install root itself is never compared with the
    version: a root without subdirectories gives "not found" after its one
    listing, whatever its own name is, even when that name contains the
    version. *)
Theorem X4_root_is_not_a_candidate :
  forall (w : World) (root unityVer : string) (fuel : nat) (entries : list Dirent),
    readdirSync w root = inr entries ->
    filter isDirectory entries = [] ->
    findUnityDirectory w (S (S fuel)) root unityVer =
    Some ([ReaddirSync root], Normal None).
Proof.
  intros w root unityVer fuel entries Hroot Hfiles. unfold findUnityDirectory.
  assert (Hrev : filter isDirectory (rev entries) = []).
  { destruct (filter isDirectory (rev entries)) as [|e l] eqn:Hf; [reflexivity|].
    assert (Hin : In e (filter isDirectory (rev entries))) by (rewrite Hf; now left).
    apply filter_In in Hin. destruct Hin as [Hin Hdir].
    apply in_rev in Hin.
    assert (Hin' : In e (filter isDirectory entries)) by (apply filter_In; now split).
    rewrite Hfiles in Hin'. destruct Hin'. }
  rewrite searchQueue_step. unfold visit, subdirs. rewrite Hroot, Hrev.
  destruct (find _ (rev entries)) as [e|] eqn:Hfind; [|reflexivity].
  apply find_some in Hfind. destruct Hfind as [Hin Hm].
  apply andb_true_iff in Hm. destruct Hm as [Hdir _].
  assert (Hin' : In e (filter isDirectory (rev entries))) by (apply filter_In; now split).
  rewrite Hrev in Hin'. destruct Hin'.
Qed.

Lemma X4_root_is_not_a_candidate_witness :
  JS.includes "/opt/2021.3.1f1" "2021.3.1f1" = true /\
  existsSync directWorld "/opt/2021.3.1f1/Unity" = true /\
  findUnityDirectory directWorld 2 "/opt/2021.3.1f1" "2021.3.1f1" =
    Some ([ReaddirSync "/opt/2021.3.1f1"], Normal None).
Proof.
  split; [reflexivity|]. split; [reflexivity|].
  apply (X4_root_is_not_a_candidate directWorld "/opt/2021.3.1f1" "2021.3.1f1" 0
           [file "Unity"; file "version.txt"]); reflexivity.
Defined.

Section ExecutableResults.

Variable w : World.
Variable executableName : string.

Lemma checked_after (t0 t : list effect) (p : string) :
  checked w executableName t p -> checked w executableName (t0 ++ t) p.
Proof.
  intros [Hex [d [t' [Hp Ht]]]]. split; [exact Hex|].
  exists d, (t0 ++ t'). split; [exact Hp|]. subst t. now rewrite app_assoc.
Qed.

Lemma firstTruthy_checked (recurse : string -> M (option string)) (unityDir : string)
    (entries : list Dirent) :
  (forall sub t p, recurse sub = Some (t, Normal (Some p)) -> checked w executableName t p) ->
  forall t p,
    firstTruthy (join w) recurse unityDir entries = Some (t, Normal (Some p)) ->
    checked w executableName t p.
Proof.
  intros Hrec. induction entries as [|e entries IH]; intros t p H;
    cbn [firstTruthy] in H; [discriminate|].
  destruct (isDirectory e); cbn [negb] in H; [|now apply IH].
  destruct (recurse (join w unityDir (name e))) as [[t0 [r| |]]|] eqn:Hsub;
    cbn [bind] in H; try discriminate.
  destruct (JS.truthyOpt r) eqn:Htruthy.
  - cbn [ret] in H. inversion H; subst. rewrite app_nil_r.
    apply (Hrec _ _ _ Hsub).
  - destruct (firstTruthy (join w) recurse unityDir entries) as [[t1 r1]|] eqn:Hmore;
      [|discriminate].
    inversion H; subst. apply checked_after. now apply IH.
Qed.

Lemma findUnityExecutable_checked (fuel : nat) :
  forall (unityDir : string) (t : list effect) (p : string),
    findUnityExecutable w fuel unityDir executableName = Some (t, Normal (Some p)) ->
    checked w executableName t p.
Proof.
  induction fuel as [|fuel IH]; intros unityDir t p H; [discriminate|].
  rewrite findUnityExecutable_step in H.
  apply in_after in H. destruct H as [t1 [H Ht]]. subst t.
  destruct (existsSync w (join w unityDir executableName)) eqn:Hex.
  - cbn [ret] in H. inversion H; subst. split; [exact Hex|].
    exists unityDir, []. now split.
  - apply in_after in H. destruct H as [t2 [H Ht]]. subst t1.
    destruct (readdirSync w unityDir) as [e|entries]; [discriminate|].
    apply (checked_after [ExistsSync (join w unityDir executableName); ReaddirSync unityDir]).
    eapply firstTruthy_checked; [|exact H].
    intros sub t p' Hsub. now apply (IH sub).
Qed.

End ExecutableResults.

(** X5: a path returned by the phase-2 search is the executable name
    joined to some directory, it exists, and the existence test of that
    very path is the last action of the search. *)
Theorem X5_executable_result_exists :
  forall (w : World) (executableName unityDir : string) (fuel : nat)
         (t : list effect) (p : string),
    findUnityExecutable w fuel unityDir executableName = Some (t, Normal (Some p)) ->
    existsSync w p = true /\
    exists d t', p = join w d executableName /\ t = t' ++ [ExistsSync p].
Proof.
  intros w executableName unityDir fuel t p H.
  exact (findUnityExecutable_checked w executableName fuel unityDir t p H).
Qed.

Lemma X5_executable_result_exists_witness :
  existsSync nestedWorld "/opt/Editors/2021.3.1f1/Editor/Unity" = true /\
  exists d t',
    "/opt/Editors/2021.3.1f1/Editor/Unity" = join nestedWorld d "Unity" /\
    [ExistsSync "/opt/Editors/2021.3.1f1/Unity"; ReaddirSync "/opt/Editors/2021.3.1f1";
     ExistsSync "/opt/Editors/2021.3.1f1/Editor/Unity"] =
    t' ++ [ExistsSync "/opt/Editors/2021.3.1f1/Editor/Unity"].
Proof.
  apply (X5_executable_result_exists nestedWorld "Unity" "/opt/Editors/2021.3.1f1" 2).
  reflexivity.
Defined.

(** On a platform the launcher knows, the name it searches for. *)
Lemma getUnityExecutable_found (w : World) (fuel : nat) (installDir version : string)
    (t1 : list effect) (dir : string) :
  supported (platform w) = true ->
  findUnityDirectory w fuel installDir version = Some (t1, Normal (Some dir)) ->
  JS.truthy dir = true ->
  getUnityExecutable w fuel installDir version =
  match findUnityExecutable w fuel dir (executableFor (platform w)) with
  | Some (t2, r) => Some (t1 ++ t2, r)
  | None => None
  end.
Proof.
  intros Hplat Hfound Hdir. unfold getUnityExecutable. rewrite Hfound.
  cbn [bind JS.truthyOpt JS.nullish]. rewrite Hdir. cbn [negb].
  unfold supported in Hplat. unfold executableFor.
  destruct (platform w =? "win32"); [reflexivity|].
  destruct (platform w =? "darwin"); [reflexivity|].
  destruct (platform w =? "linux"); [reflexivity|discriminate].
Qed.

(** X6: whatever path the locator returns exists on disk and is the
    platform's executable name joined to some directory; on a platform the
    launcher does not know it returns no path at all. *)
Theorem X6_locator_result_exists :
  forall (w : World) (fuel : nat) (installDir version : string)
         (t : list effect) (p : string),
    getUnityExecutable w fuel installDir version = Some (t, Normal (Some p)) ->
    supported (platform w) = true /\
    existsSync w p = true /\
    exists d, p = join w d (executableFor (platform w)).
Proof.
  intros w fuel installDir version t p H.
  unfold getUnityExecutable in H.
  destruct (findUnityDirectory w fuel installDir version) as [[t1 [found| |]]|];
    cbn [bind] in H; try discriminate.
  destruct (JS.truthyOpt found); cbn [negb] in H; [|discriminate].
  unfold supported, executableFor.
  destruct (platform w =? "win32");
    [|destruct (platform w =? "darwin");
      [|destruct (platform w =? "linux"); [|discriminate]]];
    (match type of H with
     | match ?m with _ => _ end = _ => destruct m as [[t2 r2]|] eqn:Hexe; [|discriminate]
     end;
     inversion H; subst;
     destruct (findUnityExecutable_checked _ _ _ _ _ _ Hexe) as [Hex [d [t' [Hp _]]]];
     split; [reflexivity|]; split; [exact Hex|]; now exists d).
Qed.

Lemma X6_locator_result_exists_witness :
  supported (platform nestedWorld) = true /\
  existsSync nestedWorld "/opt/Editors/2021.3.1f1/Editor/Unity" = true /\
  exists d, "/opt/Editors/2021.3.1f1/Editor/Unity" =
            join nestedWorld d (executableFor (platform nestedWorld)).
Proof.
  apply (X6_locator_result_exists nestedWorld 7 "/opt" "2021.3.1f1"
           [ReaddirSync "/opt"; ReaddirSync "/opt/Editors";
            ExistsSync "/opt/Editors/2021.3.1f1/Unity";
            ReaddirSync "/opt/Editors/2021.3.1f1";
            ExistsSync "/opt/Editors/2021.3.1f1/Editor/Unity"]).
  reflexivity.
Defined.

(** X7: on a platform the launcher knows, once phase 1 has found a
    directory the locator is phase 2 run on that directory for the
    platform's executable name ([Unity.exe], the macOS bundle path, or
    [Unity]), its actions following those of phase 1. *)
Theorem X7_locator_composes_phases :
  forall (w : World) (fuel : nat) (installDir version : string)
         (t1 : list effect) (dir : string),
    supported (platform w) = true ->
    findUnityDirectory w fuel installDir version = Some (t1, Normal (Some dir)) ->
    JS.truthy dir = true ->
    getUnityExecutable w fuel installDir version =
    match findUnityExecutable w fuel dir (executableFor (platform w)) with
    | Some (t2, r) => Some (t1 ++ t2, r)
    | None => None
    end /\
    (executableFor "win32" = "Unity.exe" /\
     executableFor "darwin" = "Unity.app/Contents/MacOS/Unity" /\
     executableFor "linux" = "Unity").
Proof.
  intros. split; [now apply getUnityExecutable_found|]. repeat split.
Qed.

Lemma X7_locator_composes_phases_witness :
  getUnityExecutable lockedWorld 5 "/opt" "2021.3.1f1" =
  Some ([ReaddirSync "/opt"] ++
        [ExistsSync "/opt/2021.3.1f1/Unity"; ReaddirSync "/opt/2021.3.1f1";
         ExistsSync "/opt/2021.3.1f1/Data/Unity"; ReaddirSync "/opt/2021.3.1f1/Data"],
        Throw EACCES).
Proof.
  apply (proj1 (X7_locator_composes_phases lockedWorld 5 "/opt" "2021.3.1f1"
                  [ReaddirSync "/opt"] "/opt/2021.3.1f1" eq_refl eq_refl eq_refl)).
Defined.

(* ===================================================================== *)
(** ** Further properties of the argument builder *)
(* ===================================================================== *)

(** Induction along the way [reparse] consumes its tokens. *)
Lemma reparse_cases (P : list string -> list string -> Prop) :
  P [] [] ->
  (forall t rest, dashed t = false -> P rest (reparse rest) -> P (t :: rest) (reparse rest)) ->
  (forall t, dashed t = true -> P [t] [t]) ->
  (forall t v rest,
      dashed t = true -> JS.truthy v = true -> dashed v = false ->
      P rest (reparse rest) -> P (t :: v :: rest) ((t +++ " " +++ v) :: reparse rest)) ->
  (forall t v rest,
      dashed t = true -> JS.truthy v && negb (dashed v) = false ->
      P (v :: rest) (reparse (v :: rest)) -> P (t :: v :: rest) (t :: reparse (v :: rest))) ->
  forall tokens, P tokens (reparse tokens).
Proof.
  intros Hnil Hskip Hlast Htake Halone.
  assert (G : forall n tokens, length tokens <= n -> P tokens (reparse tokens)).
  { induction n as [|n IH]; intros [|t [|v rest]] Hlen; cbn [length] in Hlen;
      try exact Hnil; try lia.
    - cbn [reparse]. fold (dashed t). destruct (dashed t) eqn:Ht.
      + now apply Hlast.
      + apply (Hskip t []); [exact Ht|exact Hnil].
    - rewrite reparse_step. fold (dashed t) (dashed v).
      destruct (dashed t) eqn:Ht.
      + destruct (JS.truthy v && negb (dashed v)) eqn:Hv.
        * apply andb_true_iff in Hv. destruct Hv as [Hv Hd].
          apply negb_true_iff in Hd.
          apply Htake; try assumption. apply IH. lia.
        * apply Halone; try assumption. apply IH. cbn [length]. lia.
      + apply Hskip; [exact Ht|]. apply IH. cbn [length]. lia. }
  intros tokens. now apply (G (length tokens)).
Qed.

Lemma dashed_append (t x : string) : dashed t = true -> dashed (t +++ x) = true.
Proof.
  unfold dashed, JS.startsWith. destruct t as [|c t]; [discriminate|].
  cbn [String.prefix String.append].
  destruct (ascii_dec "-" c); [|discriminate].
  intros _. now destruct (t +++ x).
Qed.

Lemma reparse_dashed (tokens : list string) :
  Forall (fun a => dashed a = true) (reparse tokens).
Proof.
  apply (reparse_cases (fun _ out => Forall (fun a => dashed a = true) out)); intros;
    try (constructor; try assumption); try assumption.
  - constructor.
  - now apply dashed_append.
Qed.

Lemma fixedArgs_dashed (projectPath executeMethod : string) :
  Forall (fun a => dashed a = true) (fixedArgs projectPath executeMethod).
Proof. repeat constructor. Qed.

Lemma reparse_flags (tokens : list string) :
  Forall2 flagEntry (reparse tokens) (filter dashed tokens).
Proof.
  apply (reparse_cases (fun tokens out => Forall2 flagEntry out (filter dashed tokens)));
    cbn [filter].
  - constructor.
  - intros t rest Ht IH. now rewrite Ht.
  - intros t Ht. rewrite Ht. constructor; [now left|constructor].
  - intros t v rest Ht Hv Hd IH. rewrite Ht, Hd.
    constructor; [|exact IH]. right. now exists v.
  - intros t v rest Ht _ IH. rewrite Ht. constructor; [now left|exact IH].
Qed.

(** X8: every entry of the argument list, fixed or custom, starts with a
    dash, and the five fixed entries are always there. *)
Theorem X8_arguments_all_dashed :
  forall (projectPath executeMethod customOptions : string),
    exists args,
      getBuildArguments projectPath executeMethod customOptions = Some args /\
      Forall (fun a => JS.startsWith a "-" = true) args /\
      firstn 5 args = fixedArgs projectPath executeMethod.
Proof.
  intros. eexists. split; [apply getBuildArguments_reparse|]. split.
  - apply Forall_app. split; [apply fixedArgs_dashed|apply reparse_dashed].
  - reflexivity.
Qed.

(** X9: the custom entries correspond one to one, and in order, to the
    tokens that start with a dash: no flag is dropped, doubled or moved,
    and each entry is its flag alone or its flag with one value that is
    not empty and does not start with a dash. *)
Theorem X9_flags_kept_in_order :
  forall (projectPath executeMethod customOptions : string),
    exists custom,
      getBuildArguments projectPath executeMethod customOptions =
        Some (fixedArgs projectPath executeMethod ++ custom) /\
      Forall2 flagEntry custom (filter dashed (customTokens customOptions)).
Proof.
  intros. eexists. split; [apply getBuildArguments_reparse|apply reparse_flags].
Qed.

Lemma split_cons (sep : ascii) (s : string) :
  exists t ts, JS.split sep s = t :: ts.
Proof.
  destruct s as [|c s]; cbn [JS.split]; [now exists "", []|].
  destruct (Ascii.eqb c sep); [now eexists; eexists|].
  destruct (JS.split sep s); now eexists; eexists.
Qed.

Lemma concat_cons (sep t : string) (ts : list string) :
  String.concat sep (t :: ts) =
  match ts with
  | [] => t
  | _ => t +++ sep +++ String.concat sep ts
  end.
Proof. destruct ts; reflexivity. Qed.

(** Joining the pieces of a split with the separator gives the string
    back. *)
Lemma concat_split (sep : ascii) (s : string) :
  String.concat (String sep "") (JS.split sep s) = s.
Proof.
  induction s as [|c s IH]; [reflexivity|].
  cbn [JS.split]. destruct (Ascii.eqb_spec c sep) as [->|Hne].
  - rewrite concat_cons. destruct (split_cons sep s) as [t [ts Hs]].
    rewrite Hs in *. cbn [String.append]. now rewrite IH.
  - destruct (split_cons sep s) as [t [ts Hs]]. rewrite Hs in *.
    rewrite <- IH, !concat_cons. destruct ts; reflexivity.
Qed.

Lemma append_assoc3 (a b c : string) : (a +++ b) +++ c = a +++ b +++ c.
Proof.
  induction a as [|x a IH]; cbn [String.append]; [reflexivity|now rewrite IH].
Qed.

Lemma wellFormed_step (t v : string) (rest : list string) :
  wellFormed (t :: v :: rest) =
  dashed t && (if dashed v then wellFormed (v :: rest) else JS.truthy v && wellFormed rest).
Proof. reflexivity. Qed.

(** On a well-formed token list the entries, joined by spaces, read as
    the tokens joined by spaces; and there is an entry unless there is no
    token. *)
Lemma reparse_concat (tokens : list string) :
  wellFormed tokens = true ->
  String.concat " " (reparse tokens) = String.concat " " tokens /\
  (reparse tokens = [] -> tokens = []).
Proof.
  apply (reparse_cases (fun tokens out =>
           wellFormed tokens = true ->
           String.concat " " out = String.concat " " tokens /\ (out = [] -> tokens = []))).
  - intros _. now split.
  - intros t rest Ht _ Hwf. cbn [wellFormed] in Hwf. rewrite Ht in Hwf. discriminate.
  - intros t _ _. split; [reflexivity|discriminate].
  - intros t v rest _ Hv Hd IH Hwf. rewrite wellFormed_step, Hd, Hv in Hwf.
    apply andb_true_iff in Hwf. destruct Hwf as [_ Hwf]. cbn [andb] in Hwf.
    destruct (IH Hwf) as [Hcat Hnil]. split; [|discriminate].
    rewrite !concat_cons. destruct (reparse rest) as [|e es] eqn:Hout.
    + rewrite (Hnil eq_refl). reflexivity.
    + destruct rest as [|r rest']; [discriminate Hcat || (cbn in Hcat; destruct es; discriminate)|].
      rewrite append_assoc3. cbn [String.append]. now rewrite Hcat.
  - intros t v rest _ Hv IH Hwf. rewrite wellFormed_step in Hwf.
    apply andb_true_iff in Hwf. destruct Hwf as [_ Hwf].
    destruct (dashed v) eqn:Hd.
    + destruct (IH Hwf) as [Hcat Hnil]. split; [|discriminate].
      rewrite !concat_cons. destruct (reparse (v :: rest)) as [|e es] eqn:Hout.
      * discriminate (Hnil eq_refl).
      * now rewrite Hcat.
    + apply andb_true_iff in Hwf. destruct Hwf as [Hv' _].
      rewrite Hv' in Hv. discriminate.
Qed.

(** X10: for a well-formed custom options string (every parameter starts
    with a dash and carries at most one value, single spaces in between)
    nothing is lost: the custom entries, joined by single spaces as the
    launcher prints them, read exactly as the string given. *)
Theorem X10_well_formed_options_round_trip :
  forall (projectPath executeMethod customOptions : string),
    wellFormed (customTokens customOptions) = true ->
    exists custom,
      getBuildArguments projectPath executeMethod customOptions =
        Some (fixedArgs projectPath executeMethod ++ custom) /\
      String.concat " " custom = customOptions.
Proof.
  intros projectPath executeMethod customOptions Hwf.
  exists (reparse (customTokens customOptions)).
  split; [apply getBuildArguments_reparse|].
  rewrite (proj1 (reparse_concat _ Hwf)).
  destruct customOptions as [|c s]; [reflexivity|].
  apply (concat_split space).
Qed.

Lemma X10_well_formed_options_round_trip_witness :
  exists custom,
    getBuildArguments "/proj" "Builder.Run" "-buildTarget Android -nographics -quit" =
      Some (fixedArgs "/proj" "Builder.Run" ++ custom) /\
    String.concat " " custom = "-buildTarget Android -nographics -quit".
Proof.
  apply (X10_well_formed_options_round_trip "/proj" "Builder.Run"
           "-buildTarget Android -nographics -quit").
  reflexivity.
Defined.

(* ===================================================================== *)
(** ** Further properties of the version reader *)
(* ===================================================================== *)

Lemma append_nil_r (s : string) : s +++ "" = s.
Proof. induction s as [|c s IH]; cbn [String.append]; [reflexivity|now rewrite IH]. Qed.

Lemma noChar_append (c : ascii) (a b : string) :
  noChar c (a +++ b) = noChar c a && noChar c b.
Proof.
  induction a as [|x a IH]; cbn [String.append noChar]; [reflexivity|].
  now rewrite IH, andb_assoc.
Qed.

Lemma blankFree_noChar (c : ascii) (s : string) :
  JS.isWhiteSpace c = true -> blankFree s = true -> noChar c s = true.
Proof.
  intros Hc. induction s as [|x s IH]; cbn [blankFree noChar]; [reflexivity|].
  intros H. apply andb_true_iff in H. destruct H as [Hx Hs].
  rewrite (IH Hs), andb_true_r. apply negb_true_iff.
  destruct (Ascii.eqb_spec x c) as [->|]; [|reflexivity].
  rewrite Hc in Hx. discriminate.
Qed.

(** Splitting a string whose front part holds no separator: the front
    part stays in the first piece. *)
Lemma split_front (sep : ascii) (a b : string) :
  noChar sep a = true ->
  JS.split sep (a +++ b) =
  match JS.split sep b with
  | x :: xs => (a +++ x) :: xs
  | [] => [a]
  end.
Proof.
  induction a as [|c a IH]; cbn [String.append noChar]; intros H.
  - destruct (split_cons sep b) as [x [xs Hb]]. now rewrite Hb.
  - apply andb_true_iff in H. destruct H as [Hc Ha]. apply negb_true_iff in Hc.
    cbn [JS.split]. rewrite Hc, (IH Ha).
    destruct (split_cons sep b) as [x [xs Hb]]. now rewrite Hb.
Qed.

Lemma split_whole (sep : ascii) (a : string) :
  noChar sep a = true -> JS.split sep a = [a].
Proof.
  intros H. rewrite <- (append_nil_r a) at 1. rewrite (split_front sep a "" H).
  cbn [JS.split]. now rewrite append_nil_r.
Qed.

Lemma split_at_sep (sep : ascii) (a b : string) :
  noChar sep a = true ->
  JS.split sep (a +++ String sep b) = a :: JS.split sep b.
Proof.
  intros H. rewrite (split_front sep a _ H). cbn [JS.split].
  now rewrite Ascii.eqb_refl, append_nil_r.
Qed.

Lemma prefix_append (a b : string) : String.prefix a (a +++ b) = true.
Proof.
  induction a as [|c a IH]; cbn [String.append]; [now destruct b|].
  cbn [String.prefix]. destruct (ascii_dec c c); [exact IH|congruence].
Qed.

Lemma includes_front (a b : string) : JS.includes (a +++ b) a = true.
Proof.
  destruct (a +++ b) eqn:E; cbn [JS.includes]; rewrite <- E, prefix_append; reflexivity.
Qed.

Lemma trimEnd_blank (x : string) :
  forallb JS.isWhiteSpace (list_ascii_of_string x) = true -> JS.trimEnd x = "".
Proof.
  induction x as [|c x IH]; cbn [list_ascii_of_string forallb JS.trimEnd]; [reflexivity|].
  intros H. apply andb_true_iff in H. destruct H as [Hc Hx]. now rewrite (IH Hx), Hc.
Qed.

Lemma trimEnd_blankFree (v x : string) :
  blankFree v = true ->
  forallb JS.isWhiteSpace (list_ascii_of_string x) = true ->
  JS.trimEnd (v +++ x) = v.
Proof.
  intros Hv Hx. induction v as [|c v IH]; cbn [String.append]; [now apply trimEnd_blank|].
  cbn [blankFree] in Hv. apply andb_true_iff in Hv. destruct Hv as [Hc Hv].
  apply negb_true_iff in Hc. cbn [JS.trimEnd]. rewrite (IH Hv), Hc. now destruct v.
Qed.

Lemma trim_blankFree (v x : string) :
  blankFree v = true ->
  forallb JS.isWhiteSpace (list_ascii_of_string x) = true ->
  JS.trim (v +++ x) = v.
Proof.
  intros Hv Hx. unfold JS.trim. destruct v as [|c v].
  - cbn [String.append].
    assert (Hstart : JS.trimStart x = "").
    { clear Hv. induction x as [|d x IH]; [reflexivity|].
      cbn [list_ascii_of_string forallb] in Hx. apply andb_true_iff in Hx.
      destruct Hx as [Hd Hx]. cbn [JS.trimStart]. rewrite Hd. now apply IH. }
    now rewrite Hstart.
  - assert (Hc : JS.isWhiteSpace c = false).
    { cbn [blankFree] in Hv. apply andb_true_iff in Hv. now apply negb_true_iff. }
    cbn [String.append JS.trimStart]. rewrite Hc.
    now apply (trimEnd_blankFree (String c v) x).
Qed.

(** X11: from a version file as the editor writes it (first line the
    marker, one space and a version without white space, ended by LF, by
    CR LF, or by the end of the file) the reader returns exactly that
    version. *)
Theorem X11_version_file_round_trip :
  forall (w : World) (projectPath version : string) (cr : bool) (more : option string),
    blankFree version = true ->
    readFileSync w (join w (join w projectPath "ProjectSettings") "ProjectVersion.txt") =
      inr (versionFileText version cr more) ->
    getUnityVersion w projectPath =
    Some ([ReadFileSync (join w (join w projectPath "ProjectSettings") "ProjectVersion.txt")],
          Normal version).
Proof.
  intros w projectPath version cr more Hv Hfile.
  set (eol := if cr then String "013" "" else "").
  assert (Heol : forallb JS.isWhiteSpace (list_ascii_of_string eol) = true)
    by (destruct cr; reflexivity).
  assert (HeolLF : noChar newline eol = true) by (destruct cr; reflexivity).
  assert (HeolSP : noChar space eol = true) by (destruct cr; reflexivity).
  set (line := "m_EditorVersion:" +++ String space (version +++ eol)).
  assert (Hline : markerLine (versionFileText version cr more) = Some line).
  { unfold markerLine, versionFileText. fold eol.
    assert (Hno : noChar newline line = true).
    { unfold line. rewrite noChar_append. cbn [noChar].
      rewrite noChar_append, (blankFree_noChar newline version eq_refl Hv), HeolLF.
      reflexivity. }
    assert (Hsplit : exists rest,
               JS.split newline ("m_EditorVersion: " +++ version +++ eol +++
                                 match more with None => "" | Some r => String newline r end)
               = line :: rest).
    { replace ("m_EditorVersion: " +++ version +++ eol +++
               match more with None => "" | Some r => String newline r end)
        with (line +++ match more with None => "" | Some r => String newline r end)
        by (unfold line; cbn [String.append]; now rewrite append_assoc3).
      destruct more as [r|].
      - rewrite (split_at_sep newline line r Hno). now eexists.
      - rewrite append_nil_r, (split_whole newline line Hno). now eexists. }
    destruct Hsplit as [rest Hsplit]. rewrite Hsplit. cbn [find].
    unfold line at 1. now rewrite (includes_front "m_EditorVersion:" _). }
  assert (Hfield : nth_error (JS.split space line) 1 = Some (version +++ eol)).
  { unfold line.
    rewrite (split_at_sep space "m_EditorVersion:" _ eq_refl).
    rewrite (split_whole space (version +++ eol)); [reflexivity|].
    now rewrite noChar_append, (blankFree_noChar space version eq_refl Hv), HeolSP. }
  unfold getUnityVersion. rewrite Hfile. cbn [bind emit ret app].
  fold (markerLine (versionFileText version cr more)). rewrite Hline.
  cbn [JS.nullish]. rewrite Hfield. cbn [tryCatch].
  now rewrite (trim_blankFree version eol Hv Heol).
Qed.

Lemma X11_version_file_round_trip_witness :
  getUnityVersion editorsWorld "/proj" =
  Some ([ReadFileSync "/proj/ProjectSettings/ProjectVersion.txt"], Normal "2021.3.1f1").
Proof.
  apply (X11_version_file_round_trip editorsWorld "/proj" "2021.3.1f1" true
           (Some ("m_EditorVersionWithRevision: 2021.3.1f1 (3b9a5f2c9d1e)"
                  +++ String "013" (String "010" ""))));
    reflexivity.
Defined.

(** X12: the reader makes exactly one call on the file system, the read
    of the version file, and never hangs; whenever it fails, for whatever
    reason, the error it raises is the parse error wrapping the cause's
    message. *)
Theorem X12_version_reader_failures_wrapped :
  forall (w : World) (projectPath : string),
    exists r,
      getUnityVersion w projectPath =
        Some ([ReadFileSync (join w (join w projectPath "ProjectSettings")
                                    "ProjectVersion.txt")], r) /\
      r <> Suspended /\
      (forall e, r = Throw e -> exists cause, e = parseError cause).
Proof.
  intros w projectPath. unfold getUnityVersion.
  destruct (readFileSync w _) as [cause|content].
  - eexists. split; [reflexivity|]. split; [discriminate|].
    intros e H. inversion H. now exists cause.
  - cbn [bind emit ret app].
    destruct (nth_error _ 1) as [field|].
    + eexists. split; [reflexivity|]. split; discriminate.
    + eexists. split; [reflexivity|]. split; [discriminate|].
      intros e H. inversion H. now exists undefinedTrim.
Qed.

Lemma trimEnd_idempotent (s : string) : JS.trimEnd (JS.trimEnd s) = JS.trimEnd s.
Proof.
  induction s as [|c s IH]; [reflexivity|].
  cbn [JS.trimEnd]. destruct (JS.trimEnd s) as [|d t] eqn:E.
  - destruct (JS.isWhiteSpace c) eqn:Hc; [reflexivity|].
    cbn [JS.trimEnd]. now rewrite Hc.
  - cbn [JS.trimEnd]. cbn [JS.trimEnd] in IH. now rewrite IH.
Qed.

(** A string that is empty or starts with a character that is not white
    space. *)
Lemma trimStart_fixed (s : string) : JS.trimStart (JS.trimStart s) = JS.trimStart s.
Proof.
  induction s as [|c s IH]; [reflexivity|].
  cbn [JS.trimStart]. destruct (JS.isWhiteSpace c) eqn:Hc; [exact IH|].
  cbn [JS.trimStart]. now rewrite Hc.
Qed.

Lemma trimStart_trimEnd (s : string) :
  JS.trimStart s = s -> JS.trimStart (JS.trimEnd s) = JS.trimEnd s.
Proof.
  destruct s as [|c s]; [reflexivity|].
  cbn [JS.trimStart JS.trimEnd]. destruct (JS.isWhiteSpace c) eqn:Hc.
  - intros H. exfalso.
    assert (Hlen : forall x, String.length (JS.trimStart x) <= String.length x).
    { induction x as [|d x IHx]; cbn [JS.trimStart String.length]; [lia|].
      destruct (JS.isWhiteSpace d); cbn [String.length]; lia. }
    specialize (Hlen s). rewrite H in Hlen. cbn [String.length] in Hlen. lia.
  - intros _. destruct (JS.trimEnd s); cbn [JS.trimStart]; now rewrite Hc.
Qed.

Lemma trim_idempotent (s : string) : JS.trim (JS.trim s) = JS.trim s.
Proof.
  unfold JS.trim.
  rewrite (trimStart_trimEnd (JS.trimStart s) (trimStart_fixed s)).
  apply trimEnd_idempotent.
Qed.

Lemma noChar_trimStart (c : ascii) (s : string) :
  noChar c s = true -> noChar c (JS.trimStart s) = true.
Proof.
  induction s as [|x s IH]; [reflexivity|].
  cbn [JS.trimStart]. destruct (JS.isWhiteSpace x); [|trivial].
  cbn [noChar]. intros H. apply andb_true_iff in H. now apply IH.
Qed.

Lemma noChar_trimEnd (c : ascii) (s : string) :
  noChar c s = true -> noChar c (JS.trimEnd s) = true.
Proof.
  induction s as [|x s IH]; [reflexivity|].
  cbn [noChar JS.trimEnd]. intros H. apply andb_true_iff in H. destruct H as [Hx Hs].
  specialize (IH Hs). destruct (JS.trimEnd s).
  - destruct (JS.isWhiteSpace x); [reflexivity|]. cbn [noChar]. now rewrite Hx.
  - cbn [noChar] in *. now rewrite Hx, IH.
Qed.

Lemma split_noChar (sep : ascii) (s : string) :
  Forall (fun t => noChar sep t = true) (JS.split sep s).
Proof.
  induction s as [|c s IH]; cbn [JS.split]; [now repeat constructor|].
  destruct (Ascii.eqb c sep) eqn:Hc; [now constructor|].
  destruct (JS.split sep s) as [|t ts]; [repeat constructor; cbn [noChar]; now rewrite Hc|].
  inversion IH; subst. constructor; [|assumption].
  cbn [noChar]. rewrite Hc. assumption.
Qed.

(** X13: a version the reader returns contains no space and has no white
    space at either end. *)
Theorem X13_version_is_trimmed :
  forall (w : World) (projectPath : string) (t : list effect) (version : string),
    getUnityVersion w projectPath = Some (t, Normal version) ->
    JS.trim version = version /\ noChar space version = true.
Proof.
  intros w projectPath t version H. unfold getUnityVersion in H.
  destruct (readFileSync w _) as [cause|content]; [discriminate|].
  cbn [bind emit ret app] in H.
  destruct (nth_error (JS.split space _) 1) as [field|] eqn:Hfield; [|discriminate].
  cbn [tryCatch] in H. inversion H; subst. split; [apply trim_idempotent|].
  unfold JS.trim. apply noChar_trimEnd, noChar_trimStart.
  apply nth_error_In in Hfield.
  exact (proj1 (Forall_forall _ _) (split_noChar space _) field Hfield).
Qed.

Lemma X13_version_is_trimmed_witness :
  JS.trim "2021.3.1f1" = "2021.3.1f1" /\ noChar space "2021.3.1f1" = true.
Proof.
  apply (X13_version_is_trimmed editorsWorld "/proj"
           [ReadFileSync "/proj/ProjectSettings/ProjectVersion.txt"]).
  reflexivity.
Defined.

(* ===================================================================== *)
(** ** Further properties of the runner and of the orchestrator *)
(* ===================================================================== *)

Lemma exitStatus_not_exit (t : list effect) (e : effect) :
  (forall status, e <> ProcessExit status) -> exitStatus (t ++ [e]) = None.
Proof.
  intros H. unfold exitStatus. rewrite rev_app_distr. cbn [rev app].
  destruct e; try reflexivity. now destruct (H status).
Qed.

Lemma data_ends_with_write (toStr : Buffer -> string) (chunks : list (stream * Buffer)) :
  chunks = [] \/
  exists t s, flat_map (echoAndAppend toStr) chunks = t ++ [StreamWrite s].
Proof.
  induction chunks as [|c chunks IH]; [now left|]. right.
  destruct IH as [->|[t [s Ht]]].
  - cbn [flat_map app]. rewrite app_nil_r. unfold echoAndAppend.
    now exists [match fst c with
                | Stdout => ConsoleLog (toStr (snd c))
                | Stderr => ConsoleError (toStr (snd c))
                end], (toStr (snd c)).
  - cbn [flat_map]. rewrite Ht. exists (echoAndAppend toStr c ++ t), s.
    now rewrite app_assoc.
Qed.

Lemma launchTrace_ends_with_spawn (w : World) (executable : string) (args : list string)
    (projectPath logPath : string) :
  exists t, launchTrace w executable args projectPath logPath =
            t ++ [Spawn (dquote +++ executable +++ dquote) args projectPath].
Proof.
  unfold launchTrace.
  destruct (existsSync w _); eexists;
    [ change [CreateWriteStream ?a; ?b; ?c] with ([CreateWriteStream a; b] ++ [c])
    | change [CreateWriteStream ?a; ?b; ?c] with ([CreateWriteStream a; b] ++ [c]) ];
    rewrite !app_assoc; reflexivity.
Qed.

(** X14: as long as the child neither closes nor fails to start the
    launcher does not end: the runner's promise stays unsettled, the log
    is never ended although every chunk was appended, and [main] reaches
    no [process.exit]. *)
Theorem X14_no_exit_without_terminal_event :
  forall (w : World) (fuel : nat) (t : list effect) (l : launch)
         (chunks : list (stream * Buffer)),
    prepare w fuel = Some (t, Normal l) ->
    logDirReady w (launchProjectPath l) (launchLogPath l) ->
    child w (commandOf l) (buildArgs l) (launchProjectPath l) = map dataEvent chunks ->
    exists tr,
      main w fuel = Some (tr, Suspended) /\
      exitStatus tr = None /\
      endCalls tr = endCalls t /\
      logWrites tr = logWrites t ++ map (fun c => toString w (snd c)) chunks.
Proof.
  intros w fuel t l chunks Hprep Hready Hchild.
  assert (Hpending : await (flat_map (echoAndAppend (toString w)) chunks) = Suspended).
  { rewrite <- (app_nil_r (flat_map (echoAndAppend (toString w)) chunks)).
    apply await_data. }
  rewrite (main_launched w fuel t l Hprep Hready), Hchild, dispatch_data, Hpending.
  eexists. split; [reflexivity|].
  destruct (launchTrace_indices w (unityExecutable l) (buildArgs l)
              (launchProjectPath l) (launchLogPath l))
    as [i [_ [_ [_ [_ [_ [_ Hcalls]]]]]]].
  repeat split.
  - destruct (data_ends_with_write (toString w) chunks) as [->|[d [s Hd]]].
    + cbn [flat_map]. rewrite app_nil_r.
      destruct (launchTrace_ends_with_spawn w (unityExecutable l) (buildArgs l)
                  (launchProjectPath l) (launchLogPath l)) as [t0 Ht0].
      rewrite Ht0, app_assoc. apply exitStatus_not_exit. discriminate.
    + rewrite Hd, !app_assoc. apply exitStatus_not_exit. discriminate.
  - rewrite !endCalls_app, Hcalls, endCalls_data. lia.
  - rewrite !logWrites_app, logWrites_launch, logWrites_data. reflexivity.
Qed.

Lemma X14_no_exit_without_terminal_event_witness :
  exists tr,
    main endlessWorld 7 = Some (tr, Suspended) /\
    exitStatus tr = None /\
    endCalls tr = 0 /\
    logWrites tr = ["Compiling"; "warning"].
Proof.
  destruct (X14_no_exit_without_terminal_event endlessWorld 7
              [ConsoleLog "Unity project path used: /proj";
               Chdir "/proj";
               ReadFileSync "/proj/ProjectSettings/ProjectVersion.txt";
               ConsoleLog "Unity version used: 2021.3.1f1";
               ReaddirSync "/opt";
               ReaddirSync "/opt/Editors";
               ExistsSync "/opt/Editors/2021.3.1f1/Unity";
               ConsoleLog "Unity Executable: /opt/Editors/2021.3.1f1/Unity";
               ConsoleLog ("Arguments: -quit -batchmode -logFile - -projectPath /proj " +++
                           "-executeMethod Builder.Run")]
              (mkLaunch "/opt/Editors/2021.3.1f1/Unity"
                 (fixedArgs "/proj" "Builder.Run") "/proj" "Build/Releases/build_output.log")
              [(Stdout, list_byte_of_string "Compiling");
               (Stderr, list_byte_of_string "warning")])
    as [tr H].
  - reflexivity.
  - right. reflexivity.
  - reflexivity.
  - exists tr. exact H.
Defined.

(** X15: [main] never ends by throwing: whatever a stage raises is caught;
    and whenever [main] runs to its end, the last thing it does is a call
    of [process.exit]. *)
Theorem X15_main_catches_everything :
  forall (w : World) (fuel : nat) (t : list effect) (r : completion unit),
    main w fuel = Some (t, r) ->
    (forall e, r <> Throw e) /\
    (r = Normal tt -> exists status, exitStatus t = Some status).
Proof.
  intros w fuel t r H. rewrite main_prepare in H.
  destruct (prepare w fuel) as [[tp [l|e|]]|]; cbn [bind tryCatch emit] in H;
    try discriminate.
  - destruct (executeUnityBuild w _ _ _ _) as [[te [n|e|]]|];
      cbn [bind tryCatch emit] in H; try discriminate; inversion H; subst.
    + split; [discriminate|]. intros _. exists n.
      rewrite app_assoc. apply exitStatus_last.
    + split; [discriminate|]. intros _. exists 1%Z.
      change ([ConsoleError ("Error: " +++ message e)] ++ [ProcessExit 1%Z])
        with (report e). apply exitStatus_report.
    + split; discriminate.
  - inversion H; subst. split; [discriminate|]. intros _. exists 1%Z.
    change ([ConsoleError ("Error: " +++ message e)] ++ [ProcessExit 1%Z])
      with (report e). apply exitStatus_report.
  - inversion H; subst. split; discriminate.
Qed.

Lemma X15_main_catches_everything_witness :
  (forall e, @Normal unit tt <> Throw e) /\
  (@Normal unit tt = Normal tt ->
   exists status,
     exitStatus [ConsoleLog "Unity project path used: /proj";
                 Chdir "/proj";
                 ReadFileSync "/proj/ProjectSettings/ProjectVersion.txt";
                 ConsoleError ("Error: Failed to parse project version. Error: " +++
                               "ENOENT: no such file or directory");
                 ProcessExit 1%Z] = Some status).
Proof.
  apply (X15_main_catches_everything missingWorld 7). reflexivity.
Defined.

Lemma firstIndex_dispatch_mkdir (toStr : Buffer -> string) (events : list child_event) :
  firstIndex isMkdir (dispatch toStr events) = None.
Proof.
  induction events as [|ev evs IH]; [reflexivity|].
  change (dispatch toStr (ev :: evs)) with (onEvent toStr ev ++ dispatch toStr evs).
  rewrite firstIndex_app, IH. destruct ev as [b|b|[[| |]|]|e]; reflexivity.
Qed.

(** X16: the runner creates the log directory only when it is missing;
    and when the directory is missing and cannot be created the error
    leaves the runner before any log is opened and before any child is
    started. *)
Theorem X16_log_directory :
  forall (w : World) (executable : string) (args : list string)
         (projectPath logPath : string),
    (existsSync w (dirname w (join w projectPath logPath)) = true ->
     exists tr r,
       executeUnityBuild w executable args projectPath logPath = Some (tr, r) /\
       firstIndex isMkdir tr = None /\
       firstIndex isOpen tr = Some 2 /\ firstIndex isSpawn tr = Some 4) /\
    (forall e,
        existsSync w (dirname w (join w projectPath logPath)) = false ->
        mkdirSync w (dirname w (join w projectPath logPath)) = Some e ->
        exists tr,
          executeUnityBuild w executable args projectPath logPath = Some (tr, Throw e) /\
          firstIndex isMkdir tr = Some 2 /\
          firstIndex isOpen tr = None /\ firstIndex isSpawn tr = None).
Proof.
  intros w executable args projectPath logPath. split.
  - intros Hdir.
    rewrite (executeUnityBuild_launch w executable args projectPath logPath
               (or_introl Hdir)).
    eexists. eexists. split; [reflexivity|].
    unfold launchTrace. rewrite Hdir. cbn [app].
    cbn [firstIndex isMkdir isOpen isSpawn option_map].
    rewrite firstIndex_dispatch_mkdir. repeat split.
  - intros e Hdir Hmk.
    rewrite (executeUnityBuild_no_dir w executable args projectPath logPath e Hdir Hmk).
    eexists. split; [reflexivity|]. repeat split.
Qed.

Lemma X16_log_directory_witness :
  exists tr,
    executeUnityBuild readOnlyWorld "/opt/Editors/2021.3.1f1/Unity" [] "/proj" "out.log" =
      Some (tr, Throw EACCES) /\
    firstIndex isMkdir tr = Some 2 /\
    firstIndex isOpen tr = None /\ firstIndex isSpawn tr = None.
Proof.
  apply (proj2 (X16_log_directory readOnlyWorld "/opt/Editors/2021.3.1f1/Unity" []
                  "/proj" "out.log") EACCES); reflexivity.
Defined.

(** X17: [main] fails fast.  When the project directory cannot be
    entered it reports the error and exits with 1 having read and searched
    nothing; when the version cannot be read it reports the error and
    exits with 1 having listed no directory and started no child. *)
Theorem X17_main_fails_fast :
  forall (w : World) (fuel : nat) (root : string),
    getUnityInstallDir w (env_unity_install_dir w) = Some ([], Normal root) ->
    (forall e,
        chdir w (projectPathOf w) = Some e ->
        main w fuel =
        Some ([ConsoleLog ("Unity project path used: " +++ projectPathOf w);
               Chdir (projectPathOf w);
               ConsoleError ("Error: " +++ message e);
               ProcessExit 1%Z], Normal tt)) /\
    (forall tv e,
        chdir w (projectPathOf w) = None ->
        getUnityVersion w (projectPathOf w) = Some (tv, Throw e) ->
        main w fuel =
        Some ([ConsoleLog ("Unity project path used: " +++ projectPathOf w);
               Chdir (projectPathOf w)] ++ tv ++
              [ConsoleError ("Error: " +++ message e); ProcessExit 1%Z], Normal tt)).
Proof.
  intros w fuel root Hroot. split.
  - intros e Hcd. unfold main. fold (projectPathOf w).
    rewrite Hroot. change (Some ([], Normal root)) with (ret root).
    rewrite bind_ret_l, !bind_emit, Hcd. reflexivity.
  - intros tv e Hcd Hver. unfold main. fold (projectPathOf w).
    rewrite Hroot. change (Some ([], Normal root)) with (ret root).
    rewrite bind_ret_l, !bind_emit, Hcd. cbv iota. rewrite bind_ret_l, Hver.
    cbn [bind after tryCatch emit app]. rewrite <- ?app_assoc. reflexivity.
Qed.

Lemma X17_main_fails_fast_witness :
  main noProjectWorld 7 =
    Some ([ConsoleLog "Unity project path used: /gone";
           Chdir "/gone";
           ConsoleError "Error: ENOENT: no such file or directory";
           ProcessExit 1%Z], Normal tt) /\
  main missingWorld 7 =
    Some ([ConsoleLog "Unity project path used: /proj";
           Chdir "/proj"] ++
          [ReadFileSync "/proj/ProjectSettings/ProjectVersion.txt"] ++
          [ConsoleError ("Error: Failed to parse project version. Error: " +++
                         "ENOENT: no such file or directory");
           ProcessExit 1%Z], Normal tt).
Proof.
  split.
  - apply (proj1 (X17_main_fails_fast noProjectWorld 7 "/opt" eq_refl) ENOENT eq_refl).
  - apply (proj2 (X17_main_fails_fast missingWorld 7 "/opt" eq_refl)
             [ReadFileSync "/proj/ProjectSettings/ProjectVersion.txt"]
             (parseError ENOENT) eq_refl eq_refl).
Defined.

(** X18: a locator that finds nothing does not stop the run: [main]
    prints an empty executable, and, the log directory being there, spawns
    the empty quoted command with the full argument list; its exit status
    is whatever that child then reports. *)
Theorem X18_not_found_still_spawns :
  forall (w : World) (fuel : nat) (root version : string) (tv te : list effect)
         (chunks : list (stream * Buffer)) (status : Z) (more : list child_event),
    getUnityInstallDir w (env_unity_install_dir w) = Some ([], Normal root) ->
    chdir w (projectPathOf w) = None ->
    getUnityVersion w (projectPathOf w) = Some (tv, Normal version) ->
    getUnityExecutable w fuel root version = Some (te, Normal None) ->
    logDirReady w (projectPathOf w) (logPathOf w) ->
    child w (dquote +++ "" +++ dquote) (argumentsOf w) (projectPathOf w) =
      map dataEvent chunks ++ CloseEv (Some status) :: more ->
    exists tr,
      main w fuel = Some (tr, Normal tt) /\
      In (ConsoleLog "Unity Executable: ") tr /\
      In (Spawn (dquote +++ "" +++ dquote) (argumentsOf w) (projectPathOf w)) tr /\
      exitStatus tr = Some status.
Proof.
  intros w fuel root version tv te chunks status more Hroot Hcd Hver Hexe Hready Hchild.
  pose proof (prepare_stages w fuel root version tv te None Hroot Hcd Hver Hexe) as Hprep.
  cbn [JS.nullish] in Hprep.
  rewrite (main_launched w fuel _ _ Hprep Hready).
  cbn [unityExecutable buildArgs launchProjectPath launchLogPath commandOf].
  unfold commandOf. cbn [unityExecutable]. rewrite Hchild.
  rewrite dispatch_app, dispatch_data, await_data.
  assert (Hawait : await (dispatch (toString w) (CloseEv (Some status) :: more))
                   = Normal status) by (now destruct status).
  rewrite Hawait. eexists. split; [reflexivity|]. repeat split.
  - apply in_or_app. left. apply in_or_app. right. apply in_or_app. right.
    apply in_or_app. right. apply in_or_app. right. now left.
  - apply in_or_app. right. apply in_or_app. left. apply in_or_app. left.
    destruct (launchTrace_ends_with_spawn w "" (argumentsOf w) (projectPathOf w)
                (logPathOf w)) as [t0 Ht0].
    rewrite Ht0. apply in_or_app. right. now left.
  - rewrite !app_assoc. apply exitStatus_last.
Qed.

Lemma X18_not_found_still_spawns_witness :
  exists tr,
    main absentWorld 7 = Some (tr, Normal tt) /\
    In (ConsoleLog "Unity Executable: ") tr /\
    In (Spawn (dquote +++ "" +++ dquote) (argumentsOf absentWorld)
          (projectPathOf absentWorld)) tr /\
    exitStatus tr = Some 127%Z.
Proof.
  apply (X18_not_found_still_spawns absentWorld 7 "/opt" "2019.4.40f1"
           [ReadFileSync "/proj/ProjectSettings/ProjectVersion.txt"]
           [ReaddirSync "/opt"; ReaddirSync "/opt/Editors"; ReaddirSync "/opt/Hub";
            ReaddirSync "/opt/Editors/2021.3.10f1"; ReaddirSync "/opt/Editors/2021.3.1f1";
            ReaddirSync "/opt/Editors/2021.3.1f1/Editor";
            ConsoleError
              "Unable to find the corresponding Unity version installation folder."]
           [] 127%Z []);
    try reflexivity.
  right. reflexivity.
Defined.

(* ===================================================================== *)
(** ** Properties of the blocking variant and of the compiled action *)
(* ===================================================================== *)

Lemma tokens_of_custom (customOptions : string) :
  (if JS.truthy customOptions then JS.split space customOptions else []) =
  customTokens customOptions.
Proof. now destruct customOptions. Qed.

Lemma BuildJs_getBuildArguments_reparse (w : World) (projectPath : option string)
    (logPath : string) :
  BuildJs.getBuildArguments w projectPath logPath =
  Some (BuildJs.fixedArgs w projectPath logPath ++
        reparse (customTokens (BuildJs.orEmpty (env_custom_options w)))).
Proof.
  unfold BuildJs.getBuildArguments. rewrite tokenLoop_reparse by lia.
  cbn [skipn]. now rewrite tokens_of_custom.
Qed.

(** X19: the script's argument builder puts [-batchmode], [-quit], the
    project path, the build method and the log file first, in this order,
    and then re-parses the custom options by the same rule as the
    launcher; a build method or project path that is not set is written
    as the word [undefined], and options that are not set add nothing. *)
Theorem X19_script_arguments :
  forall (w : World) (projectPath : option string) (logPath : string),
    BuildJs.getBuildArguments w projectPath logPath =
      Some (["-batchmode"; "-quit";
             "-projectPath " +++ BuildJs.showUndefined projectPath;
             "-executeMethod " +++ BuildJs.showUndefined (env_build_method w);
             "-logFile " +++ logPath] ++
            reparse (customTokens (BuildJs.orEmpty (env_custom_options w)))) /\
    (env_build_method w = None ->
     nth_error (JS.nullish (BuildJs.getBuildArguments w projectPath logPath) []) 3 =
       Some "-executeMethod undefined") /\
    (env_custom_options w = None ->
     length (JS.nullish (BuildJs.getBuildArguments w projectPath logPath) []) = 5).
Proof.
  intros w projectPath logPath.
  rewrite BuildJs_getBuildArguments_reparse. split; [reflexivity|]. split.
  - intros H. unfold BuildJs.fixedArgs. rewrite H. reflexivity.
  - intros H. rewrite H. reflexivity.
Qed.

Lemma X19_script_arguments_witness :
  nth_error (JS.nullish (BuildJs.getBuildArguments unsetWorld None "Logs/build_7.log")
               []) 3 =
    Some "-executeMethod undefined".
Proof.
  apply (proj1 (proj2 (X19_script_arguments unsetWorld None "Logs/build_7.log"))).
  reflexivity.
Defined.

(** X20: the reader of the script and the reader of the launcher return
    the same version from the same file, with the same single read, and
    each fails exactly when the other does (their messages differ). *)
Theorem X20_readers_agree :
  forall (w : World) (projectPath : string),
    (forall t version,
        BuildJs.getUnityVersion w (Some projectPath) = Some (t, Normal version) <->
        getUnityVersion w projectPath = Some (t, Normal version)) /\
    ((exists t e, BuildJs.getUnityVersion w (Some projectPath) = Some (t, Throw e)) <->
     (exists t e, getUnityVersion w projectPath = Some (t, Throw e))).
Proof.
  intros w projectPath. unfold BuildJs.getUnityVersion, getUnityVersion.
  rewrite bind_ret_l.
  destruct (readFileSync w _) as [cause|content].
  - split.
    + intros t version. split; discriminate.
    + split; intros _; eexists; eexists; reflexivity.
  - cbn [bind emit ret app].
    destruct (find _ (JS.split newline content)) as [line|]; cbn [JS.nullish].
    + destruct (nth_error (JS.split space line) 1) as [field|].
      * split; [intros t version; split; trivial|].
        split; intros [t [e H]]; discriminate.
      * split; [intros t version; split; discriminate|].
        split; intros _; eexists; eexists; reflexivity.
    + split; [intros t version; split; discriminate|].
      split; intros _; eexists; eexists; reflexivity.
Qed.

(** Traces as right-nested lists. *)
Ltac flatten_trace :=
  repeat (rewrite <- app_assoc || rewrite <- app_comm_cons); cbn [app].

Section ScriptRun.

Variable w : World.
Variable env : BuildJs.Env.
Variable fuel : nat.
Variables (projectPath version root logDir : string).
Variables (tv te : list effect) (found : option string).

Hypothesis Hproject : env_project_path w = Some projectPath.
Hypothesis Hversion :
  BuildJs.getUnityVersion w (Some projectPath) = Some (tv, Normal version).
Hypothesis Hroot :
  getUnityInstallDir w (env_unity_install_dir w) = Some ([], Normal root).
Hypothesis Hfound :
  BuildJs.getUnityExecutable w fuel root version = Some (te, Normal found).
Hypothesis HlogDir : BuildJs.env_log_dir env = Some logDir.

Let logPath : string := blockingLogPath w env logDir.
Let args : list string := blockingArgs w projectPath logPath.
Let before : list effect := blockingPrefix w projectPath version tv te found logPath.
Let result : BuildJs.SpawnSyncResult :=
  BuildJs.spawnSync env (blockingCommand found) args projectPath.

(** The run of the script once its stages have answered, by what
    [spawnSync] returns and by whether the log can be read afterwards. *)
Lemma buildUnityProject_launched :
  BuildJs.buildUnityProject w env fuel =
  match BuildJs.result_error result with
  | Some e =>
      Some (before ++ [ConsoleError ("Process failed. " +++ message e); ProcessExit 1%Z],
            Suspended)
  | None =>
      match BuildJs.result_status result with
      | Some 0%Z =>
          match readFileSync w (join w projectPath logPath) with
          | inr log =>
              Some (before ++ [ConsoleLog "Unity Build Log:";
                               ReadFileSync (join w projectPath logPath);
                               ConsoleLog log], Normal tt)
          | inl e =>
              Some (before ++ [ConsoleLog "Unity Build Log:";
                               ReadFileSync (join w projectPath logPath);
                               ConsoleError (message e); ProcessExit 1%Z], Suspended)
          end
      | status =>
          Some (before ++
                [ConsoleError ("Process exited with code: " +++ JS.showCode status);
                 ProcessExit (JS.nullish status 0%Z)], Suspended)
      end
  end.
Proof.
  unfold BuildJs.buildUnityProject. rewrite Hproject, bind_emit, Hversion.
  cbn [bind BuildJs.showUndefined]. rewrite bind_emit, Hroot.
  change (Some ([], Normal root)) with (ret root). rewrite bind_ret_l, Hfound.
  cbn [bind]. rewrite bind_emit, HlogDir. unfold BuildJs.joinPath at 1.
  rewrite bind_ret_l. fold (blockingLogPath w env logDir). fold logPath.
  rewrite BuildJs_getBuildArguments_reparse.
  fold (blockingArgs w projectPath logPath). fold args.
  cbn [liftFuel]. rewrite bind_ret_l, bind_emit.
  unfold BuildJs.executeUnityBuild. cbn [JS.nullish].
  fold (blockingCommand found). fold result.
  unfold before, blockingPrefix. fold args.
  destruct (BuildJs.result_error result) as [e|].
  - cbn [bind emit after tryCatch BuildJs.exit ret app JS.nullish].
    flatten_trace. reflexivity.
  - destruct (BuildJs.result_status result) as [[|p|p]|];
      cbn [bind emit after tryCatch BuildJs.exit ret app JS.nullish BuildJs.joinPath];
      flatten_trace; try reflexivity.
    destruct (readFileSync w (join w projectPath logPath)) as [e|log];
      cbn [bind emit after tryCatch BuildJs.exit ret app JS.nullish throw];
      flatten_trace; reflexivity.
Qed.

End ScriptRun.

Lemma exitStatus_suffix (t t' : list effect) (status : Z) :
  exitStatus (t ++ t' ++ [ProcessExit status]) = Some status.
Proof. rewrite app_assoc. apply exitStatus_last. Qed.

(** X21: when [spawnSync] reports an error the script logs
    "Process failed." with its message and exits with 1, whatever status
    is reported with it; when it reports no error and a status other than
    0 the script logs "Process exited with code:" with that status and
    exits with it.  In both cases nothing else follows the spawn. *)
Theorem X21_script_failure_statuses :
  forall (w : World) (env : BuildJs.Env) (fuel : nat)
         (projectPath version root logDir : string)
         (tv te : list effect) (found : option string),
    env_project_path w = Some projectPath ->
    BuildJs.getUnityVersion w (Some projectPath) = Some (tv, Normal version) ->
    getUnityInstallDir w (env_unity_install_dir w) = Some ([], Normal root) ->
    BuildJs.getUnityExecutable w fuel root version = Some (te, Normal found) ->
    BuildJs.env_log_dir env = Some logDir ->
    let logPath := blockingLogPath w env logDir in
    let result :=
      BuildJs.spawnSync env (blockingCommand found)
        (blockingArgs w projectPath logPath) projectPath in
    let before := blockingPrefix w projectPath version tv te found logPath in
    (forall e,
        BuildJs.result_error result = Some e ->
        BuildJs.buildUnityProject w env fuel =
          Some (before ++ [ConsoleError ("Process failed. " +++ message e);
                           ProcessExit 1%Z], Suspended) /\
        exitStatusOf (BuildJs.buildUnityProject w env fuel) = Some 1%Z) /\
    (forall status,
        BuildJs.result_error result = None ->
        BuildJs.result_status result = Some status ->
        status <> 0%Z ->
        BuildJs.buildUnityProject w env fuel =
          Some (before ++ [ConsoleError ("Process exited with code: " +++
                                         JS.showCode (Some status));
                           ProcessExit status], Suspended) /\
        exitStatusOf (BuildJs.buildUnityProject w env fuel) = Some status).
Proof.
  intros w env fuel projectPath version root logDir tv te found
         Hproject Hversion Hroot Hfound HlogDir logPath result before.
  pose proof (buildUnityProject_launched w env fuel projectPath version root logDir
                tv te found Hproject Hversion Hroot Hfound HlogDir) as Hrun.
  fold logPath result before in Hrun. split.
  - intros e He. rewrite He in Hrun. rewrite Hrun. split; [reflexivity|].
    cbn [exitStatusOf].
    apply (exitStatus_suffix before [ConsoleError ("Process failed. " +++ message e)]).
  - intros status He Hs Hnz. rewrite He, Hs in Hrun.
    destruct status as [|p|p]; [contradiction| |]; rewrite Hrun;
      (split; [reflexivity|]); cbn [exitStatusOf JS.nullish];
      apply (exitStatus_suffix before [ConsoleError _]).
Qed.

Lemma X21_script_failure_statuses_witness :
  exitStatusOf (BuildJs.buildUnityProject scriptWorld
                  (scriptEnv (Some "Logs") (BuildJs.mkResult (Some spawnError) None)) 7)
    = Some 1%Z /\
  exitStatusOf (BuildJs.buildUnityProject scriptWorld
                  (scriptEnv (Some "Logs") (BuildJs.mkResult None (Some 3%Z))) 7)
    = Some 3%Z.
Proof.
  split.
  - refine (proj2 (proj1 (X21_script_failure_statuses scriptWorld
              (scriptEnv (Some "Logs") (BuildJs.mkResult (Some spawnError) None)) 7
              "/proj" "2021.3.1f1" "/opt" "Logs"
              [ReadFileSync "/proj/ProjectSettings/ProjectVersion.txt"]
              [ReaddirSync "/opt"; ReaddirSync "/opt/Editors";
               ExistsSync "/opt/Editors/2021.3.1f1/unity-editor/Unity"]
              (Some "/opt/Editors/2021.3.1f1/unity-editor/Unity")
              eq_refl eq_refl eq_refl eq_refl eq_refl) spawnError eq_refl)).
  - refine (proj2 (proj2 (X21_script_failure_statuses scriptWorld
              (scriptEnv (Some "Logs") (BuildJs.mkResult None (Some 3%Z))) 7
              "/proj" "2021.3.1f1" "/opt" "Logs"
              [ReadFileSync "/proj/ProjectSettings/ProjectVersion.txt"]
              [ReaddirSync "/opt"; ReaddirSync "/opt/Editors";
               ExistsSync "/opt/Editors/2021.3.1f1/unity-editor/Unity"]
              (Some "/opt/Editors/2021.3.1f1/unity-editor/Unity")
              eq_refl eq_refl eq_refl eq_refl eq_refl) 3%Z eq_refl eq_refl _)).
    discriminate.
Defined.

(** X22: after a child that ended with status 0 the script prints the log
    file found under the project path and ends without any call of
    [process.exit]; if that log file cannot be read, the successful build
    ends with the error's message on the console and status 1. *)
Theorem X22_script_success_reads_log :
  forall (w : World) (env : BuildJs.Env) (fuel : nat)
         (projectPath version root logDir : string)
         (tv te : list effect) (found : option string),
    env_project_path w = Some projectPath ->
    BuildJs.getUnityVersion w (Some projectPath) = Some (tv, Normal version) ->
    getUnityInstallDir w (env_unity_install_dir w) = Some ([], Normal root) ->
    BuildJs.getUnityExecutable w fuel root version = Some (te, Normal found) ->
    BuildJs.env_log_dir env = Some logDir ->
    let logPath := blockingLogPath w env logDir in
    let result :=
      BuildJs.spawnSync env (blockingCommand found)
        (blockingArgs w projectPath logPath) projectPath in
    let before := blockingPrefix w projectPath version tv te found logPath in
    BuildJs.result_error result = None ->
    BuildJs.result_status result = Some 0%Z ->
    (forall log,
        readFileSync w (join w projectPath logPath) = inr log ->
        BuildJs.buildUnityProject w env fuel =
          Some (before ++ [ConsoleLog "Unity Build Log:";
                           ReadFileSync (join w projectPath logPath);
                           ConsoleLog log], Normal tt) /\
        exitStatusOf (BuildJs.buildUnityProject w env fuel) = None) /\
    (forall e,
        readFileSync w (join w projectPath logPath) = inl e ->
        BuildJs.buildUnityProject w env fuel =
          Some (before ++ [ConsoleLog "Unity Build Log:";
                           ReadFileSync (join w projectPath logPath);
                           ConsoleError (message e); ProcessExit 1%Z], Suspended) /\
        exitStatusOf (BuildJs.buildUnityProject w env fuel) = Some 1%Z).
Proof.
  intros w env fuel projectPath version root logDir tv te found
         Hproject Hversion Hroot Hfound HlogDir logPath result before He Hs.
  pose proof (buildUnityProject_launched w env fuel projectPath version root logDir
                tv te found Hproject Hversion Hroot Hfound HlogDir) as Hrun.
  fold logPath result before in Hrun. rewrite He, Hs in Hrun. split.
  - intros log Hlog. rewrite Hlog in Hrun. rewrite Hrun. split; [reflexivity|].
    cbn [exitStatusOf].
    change [ConsoleLog "Unity Build Log:"; ReadFileSync (join w projectPath logPath);
            ConsoleLog log]
      with ([ConsoleLog "Unity Build Log:"; ReadFileSync (join w projectPath logPath)] ++
            [ConsoleLog log]).
    rewrite app_assoc. apply exitStatus_not_exit. discriminate.
  - intros e Hlog. rewrite Hlog in Hrun. rewrite Hrun. split; [reflexivity|].
    cbn [exitStatusOf].
    apply (exitStatus_suffix before
             [ConsoleLog "Unity Build Log:"; ReadFileSync (join w projectPath logPath);
              ConsoleError (message e)]).
Qed.

Lemma X22_script_success_reads_log_witness :
  BuildJs.buildUnityProject scriptWorld
    (scriptEnv (Some "Logs") (BuildJs.mkResult None (Some 0%Z))) 7 =
  Some (blockingPrefix scriptWorld "/proj" "2021.3.1f1"
          [ReadFileSync "/proj/ProjectSettings/ProjectVersion.txt"]
          [ReaddirSync "/opt"; ReaddirSync "/opt/Editors";
           ExistsSync "/opt/Editors/2021.3.1f1/unity-editor/Unity"]
          (Some "/opt/Editors/2021.3.1f1/unity-editor/Unity") "Logs/build_7.log" ++
        [ConsoleLog "Unity Build Log:"; ReadFileSync "/proj/Logs/build_7.log";
         ConsoleLog "Build succeeded"], Normal tt).
Proof.
  refine (proj1 (proj1 (X22_script_success_reads_log scriptWorld
            (scriptEnv (Some "Logs") (BuildJs.mkResult None (Some 0%Z))) 7
            "/proj" "2021.3.1f1" "/opt" "Logs"
            [ReadFileSync "/proj/ProjectSettings/ProjectVersion.txt"]
            [ReaddirSync "/opt"; ReaddirSync "/opt/Editors";
             ExistsSync "/opt/Editors/2021.3.1f1/unity-editor/Unity"]
            (Some "/opt/Editors/2021.3.1f1/unity-editor/Unity")
            eq_refl eq_refl eq_refl eq_refl eq_refl eq_refl eq_refl)
            "Build succeeded" eq_refl)).
Defined.

(** X23: when [spawnSync] reports no error and no status (the child was
    ended by a signal) the script logs "Process exited with code: null"
    and calls [process.exit] with that [null], which ends the program with
    the default status 0. *)
Theorem X23_script_null_status :
  forall (w : World) (env : BuildJs.Env) (fuel : nat)
         (projectPath version root logDir : string)
         (tv te : list effect) (found : option string),
    env_project_path w = Some projectPath ->
    BuildJs.getUnityVersion w (Some projectPath) = Some (tv, Normal version) ->
    getUnityInstallDir w (env_unity_install_dir w) = Some ([], Normal root) ->
    BuildJs.getUnityExecutable w fuel root version = Some (te, Normal found) ->
    BuildJs.env_log_dir env = Some logDir ->
    let logPath := blockingLogPath w env logDir in
    let result :=
      BuildJs.spawnSync env (blockingCommand found)
        (blockingArgs w projectPath logPath) projectPath in
    BuildJs.result_error result = None ->
    BuildJs.result_status result = None ->
    BuildJs.buildUnityProject w env fuel =
      Some (blockingPrefix w projectPath version tv te found logPath ++
            [ConsoleError "Process exited with code: null"; ProcessExit 0%Z],
            Suspended) /\
    exitStatusOf (BuildJs.buildUnityProject w env fuel) = Some 0%Z.
Proof.
  intros w env fuel projectPath version root logDir tv te found
         Hproject Hversion Hroot Hfound HlogDir logPath result He Hs.
  pose proof (buildUnityProject_launched w env fuel projectPath version root logDir
                tv te found Hproject Hversion Hroot Hfound HlogDir) as Hrun.
  fold logPath result in Hrun. rewrite He, Hs in Hrun. rewrite Hrun.
  split; [reflexivity|]. cbn [exitStatusOf JS.nullish].
  apply (exitStatus_suffix _ [ConsoleError _]).
Qed.

Lemma X23_script_null_status_witness :
  exitStatusOf (BuildJs.buildUnityProject scriptWorld
                  (scriptEnv (Some "Logs") (BuildJs.mkResult None None)) 7)
  = Some 0%Z.
Proof.
  refine (proj2 (X23_script_null_status scriptWorld
            (scriptEnv (Some "Logs") (BuildJs.mkResult None None)) 7
            "/proj" "2021.3.1f1" "/opt" "Logs"
            [ReadFileSync "/proj/ProjectSettings/ProjectVersion.txt"]
            [ReaddirSync "/opt"; ReaddirSync "/opt/Editors";
             ExistsSync "/opt/Editors/2021.3.1f1/unity-editor/Unity"]
            (Some "/opt/Editors/2021.3.1f1/unity-editor/Unity")
            eq_refl eq_refl eq_refl eq_refl eq_refl eq_refl eq_refl)).
Defined.

(** X24: when [log_dir] is not set the script locates the editor, prints
    it, and then fails on the [join] of the log path: it reports that
    error and exits with 1 without having started any child. *)
Theorem X24_script_missing_log_dir :
  forall (w : World) (env : BuildJs.Env) (fuel : nat)
         (projectPath version root : string)
         (tv te : list effect) (found : option string),
    env_project_path w = Some projectPath ->
    BuildJs.getUnityVersion w (Some projectPath) = Some (tv, Normal version) ->
    getUnityInstallDir w (env_unity_install_dir w) = Some ([], Normal root) ->
    BuildJs.getUnityExecutable w fuel root version = Some (te, Normal found) ->
    BuildJs.env_log_dir env = None ->
    BuildJs.buildUnityProject w env fuel =
      Some ([ConsoleLog ("Unity project path used: " +++ projectPath)] ++ tv ++
            [ConsoleLog ("Unity version used: " +++ version)] ++ te ++
            [ConsoleLog ("Executable: " +++ BuildJs.showNull found);
             ConsoleError (message BuildJs.invalidPath);
             ProcessExit 1%Z], Suspended).
Proof.
  intros w env fuel projectPath version root tv te found
         Hproject Hversion Hroot Hfound HlogDir.
  unfold BuildJs.buildUnityProject. rewrite Hproject, bind_emit, Hversion.
  cbn [bind BuildJs.showUndefined]. rewrite bind_emit, Hroot.
  change (Some ([], Normal root)) with (ret root). rewrite bind_ret_l, Hfound.
  cbn [bind]. rewrite bind_emit, HlogDir.
  cbn [BuildJs.joinPath bind throw emit after tryCatch BuildJs.exit ret app JS.nullish].
  flatten_trace. reflexivity.
Qed.

Lemma X24_script_missing_log_dir_witness :
  BuildJs.buildUnityProject scriptWorld
    (scriptEnv None (BuildJs.mkResult None (Some 0%Z))) 7 =
  Some ([ConsoleLog "Unity project path used: /proj"] ++
        [ReadFileSync "/proj/ProjectSettings/ProjectVersion.txt"] ++
        [ConsoleLog "Unity version used: 2021.3.1f1"] ++
        [ReaddirSync "/opt"; ReaddirSync "/opt/Editors";
         ExistsSync "/opt/Editors/2021.3.1f1/unity-editor/Unity"] ++
        [ConsoleLog "Executable: /opt/Editors/2021.3.1f1/unity-editor/Unity";
         ConsoleError (message BuildJs.invalidPath);
         ProcessExit 1%Z], Suspended).
Proof.
  apply (X24_script_missing_log_dir scriptWorld
           (scriptEnv None (BuildJs.mkResult None (Some 0%Z))) 7
           "/proj" "2021.3.1f1" "/opt"
           [ReadFileSync "/proj/ProjectSettings/ProjectVersion.txt"]
           [ReaddirSync "/opt"; ReaddirSync "/opt/Editors";
            ExistsSync "/opt/Editors/2021.3.1f1/unity-editor/Unity"]
           (Some "/opt/Editors/2021.3.1f1/unity-editor/Unity"));
    reflexivity.
Defined.

(** X25: when [project_path] is not set the script prints the word
    [undefined] as the project path, its version reader fails on the
    [join] of the version file path without touching the file system, and
    the script reports the parse error and exits with 1. *)
Theorem X25_script_missing_project_path :
  forall (w : World) (env : BuildJs.Env) (fuel : nat),
    env_project_path w = None ->
    BuildJs.buildUnityProject w env fuel =
      Some ([ConsoleLog "Unity project path used: undefined";
             ConsoleError ("Failed to parse project version." +++ String newline " " +++
                           message BuildJs.invalidPath);
             ProcessExit 1%Z], Suspended).
Proof.
  intros w env fuel Hproject. unfold BuildJs.buildUnityProject.
  rewrite Hproject. reflexivity.
Qed.

Lemma X25_script_missing_project_path_witness :
  BuildJs.buildUnityProject unsetWorld
    (scriptEnv (Some "Logs") (BuildJs.mkResult None (Some 0%Z))) 7 =
  Some ([ConsoleLog "Unity project path used: undefined";
         ConsoleError ("Failed to parse project version." +++ String newline " " +++
                       message BuildJs.invalidPath);
         ProcessExit 1%Z], Suspended).
Proof.
  apply (X25_script_missing_project_path unsetWorld
           (scriptEnv (Some "Logs") (BuildJs.mkResult None (Some 0%Z))) 7).
  reflexivity.
Defined.

Lemma getCommandLineArguments_reparse (projectPath customArgs : string) :
  getCommandLineArguments projectPath customArgs =
  Some (["-logFile -"; "-projectPath " +++ projectPath] ++ reparse (customTokens customArgs)).
Proof.
  unfold getCommandLineArguments. rewrite tokenLoop_reparse by lia.
  cbn [skipn]. now rewrite tokens_of_custom.
Qed.

(** X26: the argument builder of the compiled action starts from two
    fixed entries only, the log redirection and the project path, and then
    re-parses the custom string by the rule of [getBuildArguments]: what
    follows its two entries is what follows the five of
    [getBuildArguments]; so [-quit] and [-batchmode] are passed to the
    editor only if the custom string carries them. *)
Theorem X26_compiled_arguments :
  forall (projectPath executeMethod customArgs : string),
    getCommandLineArguments projectPath customArgs =
      Some (["-logFile -"; "-projectPath " +++ projectPath] ++
            reparse (customTokens customArgs)) /\
    option_map (skipn 2) (getCommandLineArguments projectPath customArgs) =
      option_map (skipn 5) (getBuildArguments projectPath executeMethod customArgs) /\
    (forall flag,
        In flag ["-quit"; "-batchmode"] ->
        In flag (JS.nullish (getCommandLineArguments projectPath customArgs) []) ->
        In flag (reparse (customTokens customArgs))).
Proof.
  intros projectPath executeMethod customArgs.
  rewrite getCommandLineArguments_reparse, getBuildArguments_reparse.
  split; [reflexivity|]. split; [reflexivity|].
  intros flag Hflag Hin. cbn [JS.nullish app] in Hin.
  destruct Hin as [Heq|[Heq|Hin]]; [| |exact Hin].
  - destruct Hflag as [<-|[<-|[]]]; discriminate.
  - exfalso. destruct Hflag as [<-|[<-|[]]].
    + assert (H : String.get 1 ("-projectPath " +++ projectPath) = String.get 1 "-quit")
        by (now rewrite Heq).
      discriminate H.
    + assert (H : String.get 1 ("-projectPath " +++ projectPath) = String.get 1 "-batchmode")
        by (now rewrite Heq).
      discriminate H.
Qed.
